(** * gmt.clib.core: the ctypes wrapper class [LibGMT]

    A shallow embedding of [src/gmt/clib/core.py].  The Python object, the
    file system and the native library are put in one explicit [world]
    that every method threads; an exception is a value, and the world as
    it was when the exception was raised is kept, as Python keeps the
    mutations made before a [raise]. *)

From Stdlib Require Import Ascii String ZArith.
From stdpp Require Import gmap strings list pretty.

Local Open Scope Z_scope.
Local Open Scope string_scope.

(** ** Python's [str] methods used by the module *)

Module PyStr.

Definition nl : string := String "010"%char EmptyString.

(** [sep.join(parts)] *)
Fixpoint join (sep : string) (parts : list string) : string :=
  match parts with
  | [] => EmptyString
  | [p] => p
  | p :: rest => p +:+ sep +:+ join sep rest
  end.

(** [s.split(sep)] for a separator of one character: never the empty
    list, and an empty field between two separators is kept. *)
Fixpoint split (sep : ascii) (s : string) : list string :=
  match s with
  | EmptyString => [EmptyString]
  | String c r =>
      if decide (c = sep) then EmptyString :: split sep r
      else match split sep r with
           | p :: ps => String c p :: ps
           | [] => [String c EmptyString]
           end
  end.

(** [c.isspace()] on the code points below 256. *)
Definition isspace (c : ascii) : bool :=
  let n := nat_of_ascii c in
  ((9 <=? n) && (n <=? 13) || (28 <=? n) && (n <=? 32)
   || (n =? 133) || (n =? 160))%nat.

Fixpoint lstrip (s : string) : string :=
  match s with
  | EmptyString => EmptyString
  | String c r => if isspace c then lstrip r else s
  end.

Fixpoint rstrip (s : string) : string :=
  match s with
  | EmptyString => EmptyString
  | String c r =>
      match rstrip r with
      | EmptyString => if isspace c then EmptyString else String c EmptyString
      | r' => String c r'
      end
  end.

(** [s.strip()] *)
Definition strip (s : string) : string := rstrip (lstrip s).

(** [sub in s] *)
Definition contains (sub s : string) : Prop :=
  exists pre post, s = pre +:+ sub +:+ post.

End PyStr.

(** ** Exceptions *)

(** Modelled from the spec: the classes [GMTCLibError] and
    [GMTCLibNoSessionError] of [gmt/exceptions.py] are not among the
    sources.  The spec has one error category for the failures of native
    calls and makes the absence of a session "its own distinct error
    category".  The two [OSError]s are what [tempfile], [open] and
    [os.remove] raise. *)
Inductive exn : Type :=
| GMTCLibError (msg : string)
| GMTCLibNoSessionError (msg : string)
| FileNotFoundError (path : string)
| FileExistsError (msg : string).

Definition is_GMTCLibError (e : exn) : bool :=
  match e with GMTCLibError _ => true | _ => false end.

(** ** The class attributes *)

Definition data_families : list string :=
  [ "GMT_IS_DATASET"; "GMT_IS_GRID"; "GMT_IS_PALETTE"; "GMT_IS_MATRIX";
    "GMT_IS_VECTOR" ].

Definition data_vias : list string := [ "GMT_VIA_MATRIX"; "GMT_VIA_VECTOR" ].

Definition data_geometries : list string :=
  [ "GMT_IS_NONE"; "GMT_IS_POINT"; "GMT_IS_LINE"; "GMT_IS_POLYGON";
    "GMT_IS_PLP"; "GMT_IS_SURFACE" ].

Definition data_modes : list string := [ "GMT_CONTAINER_ONLY"; "GMT_OUTPUT" ].

(** [x in l] on a list of strings. *)
Definition py_in (x : string) (l : list string) : bool := bool_decide (x ∈ l).

(** The directory [tempfile] creates its files in. *)
Definition tempdir : string := "/tmp/".

(** The files on disk: path to text. *)
Abbreviation fsys := (gmap string string).

(** ** The native library, the world and the methods *)

Section LibGMT.

(** [N] is the internal state of the loaded libgmt, opaque to Python;
    [c_double] is the element type of the [ranges] and [inc] arrays,
    which the wrapper hands over without looking at it. *)
Context {N c_double : Type}.

(** What a native call can see and change: its own state and the disk. *)
Definition env : Type := N * fsys.

(** The functions bound by [_bind_clib_functions].  A [c_void_p] result
    is [None] for the NULL pointer, as ctypes returns it.  GMT_Get_Enum
    takes only the name and looks it up in a table of the library. *)
Record clib : Type := {
  _c_get_enum : string -> option Z;
  _c_create_session : string -> Z -> Z -> env -> option Z * env;
  _c_destroy_session : Z -> env -> Z * env;
  _c_call_module : Z -> string -> Z -> string -> env -> Z * env;
  _c_create_data :
    Z -> Z -> Z -> Z -> option (list Z) -> option (list c_double) ->
    option (list c_double) -> Z -> Z -> option Z -> env -> option Z * env;
  _c_handle_messages : Z -> Z -> Z -> string -> env -> Z * env;
}.

(** What the wrapper did to the outside, oldest first: the calls into
    libgmt with their arguments (and the status they returned), and the
    files it created and removed. *)
Inductive event : Type :=
| GMT_Get_Enum (name : string)
| GMT_Create_Session (name : string) (pad mode : Z)
| GMT_Destroy_Session (session : Z) (status : Z)
| GMT_Call_Module (session : Z) (module : string) (mode : Z) (args : string)
                  (status : Z)
| GMT_Create_Data (session family geometry mode : Z) (dim : option (list Z))
                  (ranges inc : option (list c_double))
                  (registration pad : Z) (data : option Z)
| GMT_Handle_Messages (session mode mtype : Z) (file : string) (status : Z)
| Temp_File (path : string)
| Os_Remove (path : string).

Definition is_native (e : event) : bool :=
  match e with Temp_File _ | Os_Remove _ => false | _ => true end.

Definition is_get_enum (e : event) : bool :=
  match e with GMT_Get_Enum _ => true | _ => false end.

Definition is_temp_file (e : event) : bool :=
  match e with Temp_File _ => true | _ => false end.

Record world : Type := World {
  session_id : option Z;      (* self._session_id *)
  native : N;                 (* the state inside libgmt *)
  files : fsys;               (* the disk *)
  temp_names : list string;   (* the random names tempfile will draw *)
  trace : list event;
}.

Definition set_session (s : option Z) (w : world) : world :=
  World s (native w) (files w) (temp_names w) (trace w).

Definition set_env (e : env) (w : world) : world :=
  World (session_id w) (fst e) (snd e) (temp_names w) (trace w).

Definition set_files (fs : fsys) (w : world) : world :=
  World (session_id w) (native w) fs (temp_names w) (trace w).

Definition set_temp_names (l : list string) (w : world) : world :=
  World (session_id w) (native w) (files w) l (trace w).

Definition log_event (e : event) (w : world) : world :=
  World (session_id w) (native w) (files w) (temp_names w) (trace w ++ [e]).

(** *** Computations that may raise *)

Definition M (A : Type) : Type := world -> (exn + A) * world.

Definition ret {A} (a : A) : M A := fun w => (inr a, w).

Definition raise {A} (e : exn) : M A := fun w => (inl e, w).

Definition bind {A B} (m : M A) (k : A -> M B) : M B :=
  fun w =>
    match m w with
    | (inl e, w') => (inl e, w')
    | (inr a, w') => k a w'
    end.

(** [try: body finally: fin]: [fin] runs on both exits; an exception of
    [fin] replaces the outcome of [body]. *)
Definition try_finally {A} (body : M A) (fin : M unit) : M A :=
  fun w =>
    let '(r, w1) := body w in
    match fin w1 with
    | (inl e, w2) => (inl e, w2)
    | (inr _, w2) => (r, w2)
    end.

(** [with gen() as x: body] for a [@contextmanager] generator with no
    [try] around its [yield], cut in the part before the [yield]
    ([enter]) and the part after it ([leave]).  An exception of [body]
    is thrown into the generator at the [yield] and leaves it at once:
    [leave] runs only when [body] ends normally. *)
Definition with_generator {A B} (enter : M A) (leave : A -> M unit)
           (body : A -> M B) : M B :=
  bind enter (fun x => bind (body x) (fun b => bind (leave x) (fun _ => ret b))).

End LibGMT.

Arguments clib : clear implicits.
Arguments env : clear implicits.
Arguments event : clear implicits.
Arguments world : clear implicits.
Arguments M : clear implicits.

Notation "x <- c ;; k" := (bind c (fun x => k))
  (at level 100, c at next level, right associativity).
Notation "c ;;; k" := (bind c (fun _ => k))
  (at level 100, right associativity).

(** The keyword arguments [create_data] looks at; [None] is a key that
    is absent from [kwargs]. *)
Record kwargs (c_double : Type) : Type := Kwargs {
  kw_dim : option (list Z);
  kw_ranges : option (list c_double);
  kw_inc : option (list c_double);
  kw_registration : option Z;
  kw_pad : option Z;
}.

Arguments Kwargs {c_double}.
Arguments kw_dim {c_double}.
Arguments kw_ranges {c_double}.
Arguments kw_inc {c_double}.
Arguments kw_registration {c_double}.
Arguments kw_pad {c_double}.

(** Modelled from the spec: [kwargs_to_ctypes_array] of [gmt/clib/utils.py]
    is not among the sources.  [create_data] documents it: the argument is
    converted to a ctypes array if given, and the NULL pointer is passed
    when it is not. *)
Definition kwargs_to_ctypes_array {A : Type} (argument : option (list A))
  : option (list A) :=
  match argument with
  | Some values => Some values
  | None => None
  end.

Section Methods.

Context {N c_double : Type}.
Variable lib : clib N c_double.

Local Abbreviation world := (world N c_double).
Local Abbreviation M := (M N c_double).
Local Abbreviation event := (event c_double).

(** *** The operating system *)

(** The first of the drawn names that no file has yet, and the names
    left; [None] when the draws are used up. *)
Fixpoint mkstemp (prefix suffix : string) (names : list string) (fs : fsys)
  : option (string * list string) :=
  match names with
  | [] => None
  | n :: rest =>
      let path := tempdir +:+ prefix +:+ n +:+ suffix in
      match fs !! path with
      | None => Some (path, rest)
      | Some _ => mkstemp prefix suffix rest fs
      end
  end.

(** [NamedTemporaryFile(prefix=.., suffix=.., delete=False)], its
    [name], and [close()]: an empty file is left on disk. *)
Definition NamedTemporaryFile (prefix suffix : string) : M string :=
  fun w =>
    match mkstemp prefix suffix (temp_names w) (files w) with
    | None =>
        (inl (FileExistsError "No usable temporary file name found"),
         set_temp_names [] w)
    | Some (path, rest) =>
        (inr path,
         log_event (Temp_File path)
           (set_files (<[path := EmptyString]> (files w))
              (set_temp_names rest w)))
    end.

(** [os.remove(path)] *)
Definition os_remove (path : string) : M unit :=
  fun w =>
    match files w !! path with
    | None => (inl (FileNotFoundError path), w)
    | Some _ =>
        (inr tt, log_event (Os_Remove path) (set_files (delete path (files w)) w))
    end.

(** [with open(path) as f: f.read()] *)
Definition read_file (path : string) : M string :=
  fun w =>
    match files w !! path with
    | None => (inl (FileNotFoundError path), w)
    | Some text => (inr text, w)
    end.

(** *** Calls into libgmt *)

Definition the_env (w : world) : env N := (native w, files w).

Definition call_get_enum (name : string) : M (option Z) :=
  fun w => (inr (_c_get_enum lib name), log_event (GMT_Get_Enum name) w).

Definition call_create_session (name : string) (pad mode : Z) : M (option Z) :=
  fun w =>
    let '(r, e) := _c_create_session lib name pad mode (the_env w) in
    (inr r, log_event (GMT_Create_Session name pad mode) (set_env e w)).

Definition call_destroy_session (session : Z) : M Z :=
  fun w =>
    let '(status, e) := _c_destroy_session lib session (the_env w) in
    (inr status, log_event (GMT_Destroy_Session session status) (set_env e w)).

Definition call_call_module (session : Z) (module : string) (mode : Z)
           (args : string) : M Z :=
  fun w =>
    let '(status, e) := _c_call_module lib session module mode args (the_env w) in
    (inr status,
     log_event (GMT_Call_Module session module mode args status) (set_env e w)).

Definition call_handle_messages (session mode mtype : Z) (file : string) : M Z :=
  fun w =>
    let '(status, e) := _c_handle_messages lib session mode mtype file (the_env w) in
    (inr status,
     log_event (GMT_Handle_Messages session mode mtype file status) (set_env e w)).

Definition call_create_data (session family geometry mode : Z)
           (dim : option (list Z)) (ranges inc : option (list c_double))
           (registration pad : Z) (data : option Z) : M (option Z) :=
  fun w =>
    let '(r, e) :=
      _c_create_data lib session family geometry mode dim ranges inc
                     registration pad data (the_env w) in
    (inr r,
     log_event (GMT_Create_Data session family geometry mode dim ranges inc
                                registration pad data) (set_env e w)).

(** *** The methods of [LibGMT] *)

(** The instance after [__init__], in a world with the given library
    state, disk and draws: no session, nothing done yet. *)
Definition __init__ (n : N) (fs : fsys) (names : list string) : world :=
  World None n fs names [].

(** The getter of the property [current_session]. *)
Definition current_session : M Z :=
  fun w =>
    match session_id w with
    | None =>
        (inl (GMTCLibNoSessionError
                (PyStr.join " " [ "No currently open session.";
                                  "Call methods only inside a 'with' block." ])),
         w)
    | Some s => (inr s, w)
    end.

(** The setter of the property [current_session]. *)
Definition set_current_session (session : option Z) : M unit :=
  fun w => (inr tt, set_session session w).

Definition get_constant (name : string) : M Z :=
  value <- call_get_enum name ;;
  match value with
  | None =>
      raise (GMTCLibError ("Constant '" +:+ name +:+ "' doesn't exits in libgmt."))
  | Some v =>
      if (v =? -99999)%Z
      then raise (GMTCLibError
                    ("Constant '" +:+ name +:+ "' doesn't exits in libgmt."))
      else ret v
  end.

Definition create_session (session_name : string) : M Z :=
  padding <- get_constant "GMT_PAD_DEFAULT" ;;
  session_type <- get_constant "GMT_SESSION_EXTERNAL" ;;
  session <- call_create_session session_name padding session_type ;;
  match session with
  | None => raise (GMTCLibError "Failed to create a GMT API void pointer.")
  | Some s => ret s
  end.

Definition destroy_session (session : Z) : M unit :=
  status <- call_destroy_session session ;;
  if negb (status =? 0)%Z
  then raise (GMTCLibError "Failed to destroy GMT API session")
  else ret tt.

Definition __enter__ : M unit :=
  session <- create_session "gmt-python-session" ;;
  set_current_session (Some session).

Definition __exit__ : M unit :=
  try_finally
    (session <- current_session ;; destroy_session session)
    (set_current_session None).

(** [log_to_file] up to its [yield]. *)
Definition log_to_file_enter (logfile : option string) : M string :=
  logfile <- match logfile with
             | None => NamedTemporaryFile "gmt-python-" ".log"
             | Some given => ret given
             end ;;
  session <- current_session ;;
  log_once <- get_constant "GMT_LOG_ONCE" ;;
  is_file <- get_constant "GMT_IS_FILE" ;;
  status <- call_handle_messages session log_once is_file logfile ;;
  if negb (status =? 0)%Z
  then raise (GMTCLibError
                ("Failed to set logging to file '" +:+ logfile +:+ "' (error: "
                 +:+ pretty status +:+ ")."))
  else ret logfile.

(** [log_to_file] after its [yield]. *)
Definition log_to_file_leave (logfile : string) : M unit := os_remove logfile.

(** [with self.log_to_file(logfile) as name: body name] *)
Definition log_to_file {A} (logfile : option string) (body : string -> M A)
  : M A :=
  with_generator (log_to_file_enter logfile) log_to_file_leave body.

(** The block under [with self.log_to_file() as logfile] in
    [call_module]: the status of the module and the stripped log. *)
Definition call_module_logged (session : Z) (module : string) (mode : Z)
           (args : string) (logfile : string) : M (Z * string) :=
  status <- call_call_module session module mode args ;;
  text <- read_file logfile ;;
  ret (status, PyStr.strip text).

(** The message of the exception [call_module] raises. *)
Definition call_module_msg (module : string) (status : Z) (log : string)
  : string :=
  if decide (log = EmptyString)
  then "Invalid GMT module name '" +:+ module +:+ "'."
  else PyStr.join PyStr.nl
         [ "'" +:+ module +:+ "' failed (error: " +:+ pretty status +:+ ").";
           "---------- Error log ----------";
           EmptyString;
           log;
           EmptyString;
           "-------------------------------" ].

Definition call_module (module args : string) : M unit :=
  mode <- get_constant "GMT_MODULE_CMD" ;;
  session <- current_session ;;
  r <- log_to_file None (call_module_logged session module mode args) ;;
  let '(status, log) := r in
  if negb (status =? 0)%Z
  then raise (GMTCLibError (call_module_msg module status log))
  else ret tt.

Definition _parse_data_family (family : string) : M Z :=
  let parts := PyStr.split "|" family in
  if (2 <? length parts)%nat
  then raise (GMTCLibError
                ("Too many sections in family (>2): '" +:+ family +:+ "'"))
  else
    let family_name := hd EmptyString parts in
    if negb (py_in family_name data_families)
    then raise (GMTCLibError ("Invalid data family '" +:+ family_name +:+ "'."))
    else
      family_value <- get_constant family_name ;;
      via_value <-
        (if (length parts =? 2)%nat
         then
           let via_name := nth 1 parts EmptyString in
           if negb (py_in via_name data_vias)
           then raise (GMTCLibError
                         ("Invalid data family (via) '" +:+ via_name +:+ "'."))
           else get_constant via_name
         else ret 0%Z) ;;
      ret (family_value + via_value)%Z.

Definition create_data (family geometry mode : string)
           (kw : kwargs c_double) : M Z :=
  family_int <- _parse_data_family family ;;
  if negb (py_in mode data_modes)
  then raise (GMTCLibError ("Invalid data creation mode '" +:+ mode +:+ "'."))
  else
    if negb (py_in geometry data_geometries)
    then raise (GMTCLibError ("Invalid data geometry '" +:+ geometry +:+ "'."))
    else
      let dim := kwargs_to_ctypes_array (kw_dim kw) in
      let ranges := kwargs_to_ctypes_array (kw_ranges kw) in
      let inc := kwargs_to_ctypes_array (kw_inc kw) in
      node_reg <- get_constant "GMT_GRID_NODE_REG" ;;
      let registration := default node_reg (kw_registration kw) in
      pad_default <- get_constant "GMT_PAD_DEFAULT" ;;
      let pad := default pad_default (kw_pad kw) in
      session <- current_session ;;
      geometry_int <- get_constant geometry ;;
      mode_int <- get_constant mode ;;
      data_ptr <- call_create_data session family_int geometry_int mode_int
                                   dim ranges inc registration pad None ;;
      match data_ptr with
      | None => raise (GMTCLibError "Failed to create an empty GMT data pointer.")
      | Some p => ret p
      end.

(** [with LibGMT() as lib: body], the use the class is written for:
    [__enter__], then the block, then [__exit__] on both exits of the
    block.  [__exit__] returns [None], so an exception of the block goes
    on after it, unless [__exit__] raises one of its own.  When
    [__enter__] raises, neither the block nor [__exit__] runs. *)
Definition with_LibGMT {A} (body : M A) : M A :=
  __enter__ ;;; try_finally body __exit__.

End Methods.

(** ** A small libgmt to run the methods on *)

Module Sample.

(** A few rows of the table behind GMT_Get_Enum; an unknown name gives
    the sentinel. *)
Definition enum_table : list (string * Z) :=
  [ ("GMT_PAD_DEFAULT", 2); ("GMT_SESSION_EXTERNAL", 2); ("GMT_MODULE_CMD", 0);
    ("GMT_LOG_ONCE", 1); ("GMT_IS_FILE", 0); ("GMT_GRID_NODE_REG", 0);
    ("GMT_IS_DATASET", 0); ("GMT_IS_GRID", 1); ("GMT_IS_PALETTE", 3);
    ("GMT_IS_MATRIX", 5); ("GMT_IS_VECTOR", 6); ("GMT_VIA_MATRIX", 128);
    ("GMT_VIA_VECTOR", 256); ("GMT_IS_NONE", 16); ("GMT_IS_POINT", 1);
    ("GMT_IS_LINE", 2); ("GMT_IS_POLYGON", 4); ("GMT_IS_PLP", 7);
    ("GMT_IS_SURFACE", 8); ("GMT_CONTAINER_ONLY", 2); ("GMT_OUTPUT", 1) ]%Z.

Fixpoint get_enum (table : list (string * Z)) (name : string) : option Z :=
  match table with
  | [] => Some (-99999)%Z
  | (k, v) :: rest => if decide (k = name) then Some v else get_enum rest name
  end.

(** The library remembers the file GMT_Handle_Messages was given and
    the next module writes [log] to it.  The parameters are the status
    each call returns. *)
Definition lib (destroy_status messages_status module_status : Z)
           (log : string) : clib (option string) Z :=
  {| _c_get_enum := get_enum enum_table;
     _c_create_session := fun _ _ _ e => (Some 1000%Z, e);
     _c_destroy_session := fun _ e => (destroy_status, e);
     _c_call_module := fun _ _ _ _ e =>
       match fst e with
       | Some file => (module_status, (None, <[file := log]> (snd e)))
       | None => (module_status, e)
       end;
     _c_create_data := fun _ _ _ _ _ _ _ _ _ _ e => (Some 2000%Z, e);
     _c_handle_messages := fun _ _ _ file e =>
       if (messages_status =? 0)%Z then (0%Z, (Some file, snd e))
       else (messages_status, e) |}.

(** A fresh instance on an empty disk. *)
Definition fresh : world (option string) Z := __init__ None ∅ [ "a1"; "b2" ].

(** The same with a session open. *)
Definition opened : world (option string) Z := set_session (Some 1000%Z) fresh.

Definition no_kwargs : kwargs Z := Kwargs None None None None None.

(** A library that knows no constant at all. *)
Definition bare : clib (option string) Z :=
  {| _c_get_enum := get_enum [];
     _c_create_session := fun _ _ _ e => (Some 1000%Z, e);
     _c_destroy_session := fun _ e => (0%Z, e);
     _c_call_module := fun _ _ _ _ e => (0%Z, e);
     _c_create_data := fun _ _ _ _ _ _ _ _ _ _ e => (Some 2000%Z, e);
     _c_handle_messages := fun _ _ _ _ e => (0%Z, e) |}.

(** A library whose modules remove the log file they were given. *)
Definition removing_log (module_status : Z) : clib (option string) Z :=
  {| _c_get_enum := get_enum enum_table;
     _c_create_session := fun _ _ _ e => (Some 1000%Z, e);
     _c_destroy_session := fun _ e => (0%Z, e);
     _c_call_module := fun _ _ _ _ e =>
       match fst e with
       | Some file => (module_status, (None, delete file (snd e)))
       | None => (module_status, e)
       end;
     _c_create_data := fun _ _ _ _ _ _ _ _ _ _ e => (Some 2000%Z, e);
     _c_handle_messages := fun _ _ _ file e => (0%Z, (Some file, snd e)) |}.

End Sample.


(** ** Properties *)

Section Properties.

Context {N c_double : Type}.
Variable lib : clib N c_double.

Local Abbreviation world := (world N c_double).
Local Abbreviation event := (event c_double).

(** The events of [w'] that [w] does not have yet. *)
Definition new_events (w w' : world) : list event :=
  drop (length (trace w)) (trace w').

(** [w'] is [w] after some constant lookups and nothing else. *)
Definition only_lookups (w w' : world) : Prop :=
  session_id w' = session_id w /\ the_env w' = the_env w
  /\ temp_names w' = temp_names w
  /\ exists l, trace w' = (trace w ++ l)%list
               /\ Forall (fun e => is_get_enum e = true) l.

(** [create_data] raised GMTCLibError and has called nothing of the
    native library by then. *)
Definition rejected_before_any_call (w : world) (family geometry mode : string)
           (kw : kwargs c_double) : Prop :=
  let r := create_data lib family geometry mode kw w in
  (exists msg, fst r = inl (GMTCLibError msg))
  /\ Forall (fun e => is_native e = false) (new_events w (snd r)).

(** [call_module] raises GMTCLibError exactly when GMT_Call_Module has
    returned a status other than zero. *)
Definition raises_iff_module_failed (w : world) (module args : string) : Prop :=
  let r := call_module lib module args w in
  (exists msg, fst r = inl (GMTCLibError msg))
  <-> (exists session mode status,
         GMT_Call_Module session module mode args status ∈ new_events w (snd r)
         /\ status <> 0%Z).

(** What a run of [call_module module args] from [w] meets on its way
    to the native module: a session [s], the three constants, a free
    temporary name [p] (with [rest] the draws left), GMT_Handle_Messages
    answering [hstatus] on the disk that now has the empty file [p] and
    leaving [e1], and GMT_Call_Module answering [status] and leaving
    [e2]. *)
Definition module_reached (w : world) (module args : string)
           (s mode once isfile : Z) (p : string) (rest : list string)
           (hstatus : Z) (e1 : env N) (status : Z) (e2 : env N) : Prop :=
  _c_get_enum lib "GMT_MODULE_CMD" = Some mode /\ mode <> (-99999)%Z
  /\ _c_get_enum lib "GMT_LOG_ONCE" = Some once /\ once <> (-99999)%Z
  /\ _c_get_enum lib "GMT_IS_FILE" = Some isfile /\ isfile <> (-99999)%Z
  /\ session_id w = Some s
  /\ mkstemp "gmt-python-" ".log" (temp_names w) (files w) = Some (p, rest)
  /\ _c_handle_messages lib s once isfile p
       (native w, <[p := EmptyString]> (files w)) = (hstatus, e1)
  /\ _c_call_module lib s module mode args e1 = (status, e2).

(** What [get_constant] gives, as a function of the table alone. *)
Definition constant (name : string) : exn + Z :=
  match _c_get_enum lib name with
  | None => inl (GMTCLibError ("Constant '" +:+ name +:+ "' doesn't exits in libgmt."))
  | Some v =>
      if (v =? -99999)%Z
      then inl (GMTCLibError ("Constant '" +:+ name +:+ "' doesn't exits in libgmt."))
      else inr v
  end.

(** A family string as [create_data] documents it: a name of
    [data_families], or such a name, a '|' and a name of [data_vias]. *)
Definition valid_family (family : string) : bool :=
  match PyStr.split "|" family with
  | [f] => py_in f data_families
  | [f; v] => py_in f data_families && py_in v data_vias
  | _ => false
  end.

(** [call_module] got as far as the native module and could read the
    log back: the constant and the session are there, [log_to_file]
    reached its [yield] with [logfile] in world [w2], the module
    answered [status] leaving the library and the disk as [e3], and
    the log file then holds [text]. *)
Definition module_called (w : world) (module args : string) (mode session : Z)
           (logfile : string) (w2 : world) (status : Z) (e3 : env N)
           (text : string) : Prop :=
  constant "GMT_MODULE_CMD" = inr mode
  /\ session_id w = Some session
  /\ log_to_file_enter lib None (log_event (GMT_Get_Enum "GMT_MODULE_CMD") w)
     = (inr logfile, w2)
  /\ _c_call_module lib session module mode args (the_env w2) = (status, e3)
  /\ snd e3 !! logfile = Some text.

Lemma get_constant_run (name : string) (w : world) :
  get_constant lib name w = (constant name, log_event (GMT_Get_Enum name) w).
Proof.
  unfold get_constant, constant, bind, call_get_enum, raise, ret.
  destruct (_c_get_enum lib name) as [v|]; [|reflexivity].
  destruct (v =? -99999)%Z; reflexivity.
Qed.

Lemma constant_inr (name : string) (v : Z) :
  constant name = inr v <-> _c_get_enum lib name = Some v /\ v <> (-99999)%Z.
Proof.
  unfold constant. destruct (_c_get_enum lib name) as [u|].
  - destruct (Z.eqb_spec u (-99999)); split.
    + discriminate.
    + intros [[= ->] Hne]. contradiction.
    + intros [= ->]. auto.
    + intros [[= ->] _]. reflexivity.
  - split; [discriminate | intros [[=] _]].
Qed.

Lemma constant_inl (name : string) (e : exn) :
  constant name = inl e -> is_GMTCLibError e = true.
Proof.
  unfold constant. destruct (_c_get_enum lib name) as [u|].
  - destruct (u =? -99999)%Z; intros [= <-]; reflexivity.
  - intros [= <-]. reflexivity.
Qed.

(** C6: [get_constant name] raises GMTCLibError exactly when
    GMT_Get_Enum gives [None] or the sentinel -99999, and gives back
    every other integer, the negative ones too, as it is. *)
Theorem get_constant_spec (name : string) (w : world) :
  ((exists msg, fst (get_constant lib name w) = inl (GMTCLibError msg))
   <-> (_c_get_enum lib name = None \/ _c_get_enum lib name = Some (-99999)%Z))
  /\ (forall v : Z, _c_get_enum lib name = Some v -> v <> (-99999)%Z ->
      fst (get_constant lib name w) = inr v).
Proof.
  rewrite get_constant_run. simpl. split.
  - unfold constant. destruct (_c_get_enum lib name) as [u|].
    + destruct (Z.eqb_spec u (-99999)) as [->|Hne].
      * split; [auto | eauto].
      * split; [intros [msg [=]] | intros [[=]|[=]]; contradiction].
    + split; [auto | eauto].
  - intros v Hv Hne. apply constant_inr. auto.
Qed.

Lemma split_not_nil (sep : ascii) (s : string) : PyStr.split sep s <> [].
Proof.
  destruct s as [|c r]; simpl; [discriminate|].
  destruct (decide (c = sep)); [discriminate|].
  destruct (PyStr.split sep r); discriminate.
Qed.

Lemma py_in_true (x : string) (l : list string) : py_in x l = true <-> x ∈ l.
Proof. unfold py_in. apply bool_decide_eq_true. Qed.

Lemma py_in_false (x : string) (l : list string) : py_in x l = false <-> x ∉ l.
Proof. unfold py_in. apply bool_decide_eq_false. Qed.

(** A failed lookup of the family, or a bad or unknown via after a good
    family: every way [_parse_data_family] ends from there is a
    GMTCLibError. *)
Lemma parse_two_parts_bad (family f v : string) (w : world) :
  PyStr.split "|" family = [f; v] -> v ∉ data_vias ->
  exists msg, fst (_parse_data_family lib family w) = inl (GMTCLibError msg).
Proof.
  intros Hparts Hv. unfold _parse_data_family. rewrite Hparts. simpl.
  destruct (py_in f data_families); simpl; [|eauto].
  unfold bind. rewrite get_constant_run.
  destruct (constant f) as [e|a] eqn:Hf.
  - apply constant_inl in Hf. destruct e; try discriminate. simpl. eauto.
  - apply py_in_false in Hv. rewrite Hv. simpl. eauto.
Qed.

(** C7: [_parse_data_family] splits the family at '|'; more than two
    parts, a first part outside [data_families], or a second part
    outside [data_vias] raise GMTCLibError; otherwise the result is
    [get_constant] of the family part plus [get_constant] of the via
    part, the latter being 0 when there is no via part. *)
Theorem parse_data_family_spec (family : string) (w : world) :
  let parts := PyStr.split "|" family in
  ((2 < length parts)%nat \/ hd EmptyString parts ∉ data_families
   \/ (exists via, parts !! 1%nat = Some via /\ via ∉ data_vias) ->
   exists msg, fst (_parse_data_family lib family w) = inl (GMTCLibError msg))
  /\ (forall f, parts = [f] -> f ∈ data_families ->
      _parse_data_family lib family w
      = (a <- get_constant lib f ;; ret (a + 0)%Z) w)
  /\ (forall f v, parts = [f; v] -> f ∈ data_families -> v ∈ data_vias ->
      _parse_data_family lib family w
      = (a <- get_constant lib f ;; b <- get_constant lib v ;; ret (a + b)%Z) w).
Proof.
  intros parts. split; [|split].
  - intros Hbad.
    destruct (Nat.ltb_spec 2 (length parts)) as [Hlen|Hlen].
    { unfold _parse_data_family. fold parts.
      apply Nat.ltb_lt in Hlen. rewrite Hlen. simpl. eauto. }
    destruct Hbad as [Hbad|[Hbad|(via & Hvia & Hbad)]]; [lia| |].
    + unfold _parse_data_family. fold parts.
      apply Nat.ltb_ge in Hlen. rewrite Hlen.
      apply py_in_false in Hbad. rewrite Hbad. simpl. eauto.
    + destruct parts as [|f [|v [|x rest]]] eqn:Hparts;
        simpl in Hvia, Hlen; try discriminate; [|lia].
      injection Hvia as ->. eapply parse_two_parts_bad; eauto.
  - intros f Hparts Hf. unfold _parse_data_family. fold parts.
    rewrite Hparts. simpl. apply py_in_true in Hf. rewrite Hf. reflexivity.
  - intros f v Hparts Hf Hv. unfold _parse_data_family. fold parts.
    rewrite Hparts. simpl. apply py_in_true in Hf, Hv. rewrite Hf, Hv.
    reflexivity.
Qed.

Lemma current_session_none (w : world) :
  session_id w = None ->
  exists msg, current_session w = (inl (GMTCLibNoSessionError msg), w).
Proof. intros H. unfold current_session. rewrite H. eauto. Qed.

Lemma current_session_some (w : world) (s : Z) :
  session_id w = Some s -> current_session w = (inr s, w).
Proof. intros H. unfold current_session. rewrite H. reflexivity. Qed.

Lemma exit_closes (w : world) : session_id (snd (__exit__ lib w)) = None.
Proof.
  unfold __exit__, try_finally, bind, set_current_session.
  destruct (current_session w) as [[e|s] w1]; [reflexivity|].
  destruct (destroy_session lib s w1); reflexivity.
Qed.

(** C5: with a session open, [__exit__] calls the native destroy on
    that session and then stores [None], whatever the status; it raises
    GMTCLibError when the status is not zero and returns otherwise. *)
Theorem exit_destroys_then_clears (w : world) (s : Z) :
  session_id w = Some s ->
  let status := fst (_c_destroy_session lib s (the_env w)) in
  let w' := snd (__exit__ lib w) in
  new_events w w' = [GMT_Destroy_Session s status]
  /\ session_id w' = None
  /\ (status <> 0%Z ->
      fst (__exit__ lib w)
      = inl (GMTCLibError "Failed to destroy GMT API session"))
  /\ (status = 0%Z -> fst (__exit__ lib w) = inr tt).
Proof.
  intros Hs status w'. subst status w'.
  unfold __exit__, try_finally, bind, new_events.
  rewrite (current_session_some w s Hs).
  unfold destroy_session, bind, call_destroy_session.
  destruct (_c_destroy_session lib s (the_env w)) as [status e]. simpl.
  destruct (Z.eqb_spec status 0) as [->|Hne]; simpl.
  - rewrite drop_app_length. repeat split; congruence.
  - rewrite drop_app_length. repeat split; congruence.
Qed.

(** C3: reading [current_session] raises GMTCLibNoSessionError, which
    is not a GMTCLibError, on the instance as [__init__] leaves it and
    on the instance as [__exit__] leaves it, whatever [__exit__] did
    and however the native destroy answered; the read changes nothing. *)
Theorem no_session_outside_with :
  (forall (n : N) (fs : fsys) (names : list string),
      let w : world := __init__ n fs names in
      exists msg, current_session w = (inl (GMTCLibNoSessionError msg), w))
  /\ (forall w : world,
      exists msg, current_session (snd (__exit__ lib w))
                  = (inl (GMTCLibNoSessionError msg), snd (__exit__ lib w)))
  /\ (forall msg msg' : string, GMTCLibNoSessionError msg <> GMTCLibError msg').
Proof.
  split; [|split].
  - intros n fs names. apply current_session_none. reflexivity.
  - intros w. apply current_session_none, exit_closes.
  - intros msg msg'. discriminate.
Qed.

Lemma new_events_app (w w' : world) (l : list event) :
  trace w' = (trace w ++ l)%list -> new_events w w' = l.
Proof. intros H. unfold new_events. rewrite H. apply drop_app_length. Qed.

(** Brings a trace built by successive [log_event]s to the form
    [trace w ++ l]. *)
Ltac trace_norm :=
  cbn [trace log_event set_env set_files set_session set_temp_names
       session_id native files temp_names fst snd];
  rewrite <- ?app_assoc; cbn [app].

Lemma os_remove_run (path : string) (w w' : world) :
  os_remove path w = (inr tt, w') ->
  files w' !! path = None /\ trace w' = (trace w ++ [Os_Remove path])%list.
Proof.
  unfold os_remove. destruct (files w !! path); [|discriminate].
  intros [= <-]. trace_norm. split; [apply lookup_delete_eq | reflexivity].
Qed.

(** C9: given a path, [log_to_file] draws no temporary file before its
    [yield] and hands the given path to the block; when the block ends
    normally, [os.remove] takes the given file off the disk as the last
    thing done. *)
Theorem log_to_file_given_path (path : string) (w : world) :
  (let r := log_to_file_enter lib (Some path) w in
   temp_names (snd r) = temp_names w
   /\ Forall (fun e => is_temp_file e = false) (new_events w (snd r))
   /\ (forall name, fst r = inr name -> name = path))
  /\ (forall (A : Type) (body : string -> M N c_double A) (a : A) (w' : world),
      log_to_file lib (Some path) body w = (inr a, w') ->
      files w' !! path = None
      /\ exists before, trace w' = (before ++ [Os_Remove path])%list).
Proof.
  split.
  - unfold log_to_file_enter, bind, ret, raise.
    destruct (session_id w) as [s|] eqn:Hs.
    2:{ destruct (current_session_none w Hs) as [msg ->]. simpl.
        unfold new_events. rewrite drop_all.
        repeat split; [constructor | discriminate]. }
    rewrite (current_session_some w s Hs). cbv beta iota zeta.
    rewrite !get_constant_run.
    destruct (constant "GMT_LOG_ONCE") as [e|once].
    { simpl. split; [reflexivity|]. split; [|discriminate].
      erewrite new_events_app by (trace_norm; reflexivity).
      repeat constructor. }
    destruct (constant "GMT_IS_FILE") as [e|isfile].
    { simpl. split; [reflexivity|]. split; [|discriminate].
      erewrite new_events_app by (trace_norm; reflexivity).
      repeat constructor. }
    unfold call_handle_messages.
    destruct (_c_handle_messages lib s once isfile path _) as [status e].
    destruct (status =? 0)%Z; simpl.
    + split; [reflexivity|]. split; [|congruence].
      erewrite new_events_app by (trace_norm; reflexivity).
      repeat constructor.
    + split; [reflexivity|]. split; [|discriminate].
      erewrite new_events_app by (trace_norm; reflexivity).
      repeat constructor.
  - intros A body a w'. unfold log_to_file, with_generator, bind, ret.
    destruct (log_to_file_enter lib (Some path) w) as [[e|name] w1] eqn:Henter;
      [discriminate|].
    destruct (body name w1) as [[e|b] w2]; [discriminate|].
    unfold log_to_file_leave.
    destruct (os_remove name w2) as [[e|[]] w3] eqn:Hrm; [discriminate|].
    intros [= -> ->].
    assert (name = path) as ->.
    { revert Henter. unfold log_to_file_enter, bind, ret, raise.
      destruct (current_session w) as [[e|s] w0]; [discriminate|].
      rewrite !get_constant_run.
      destruct (constant "GMT_LOG_ONCE") as [e|once]; [discriminate|].
      destruct (constant "GMT_IS_FILE") as [e|isfile]; [discriminate|].
      destruct (call_handle_messages lib s once isfile path _) as [[e|status] w4];
        [discriminate|].
      destruct (status =? 0)%Z; simpl; congruence. }
    apply os_remove_run in Hrm as [Hgone Htr]. eauto.
Qed.

Lemma append_assoc (s1 s2 s3 : string) :
  (s1 +:+ s2) +:+ s3 = s1 +:+ (s2 +:+ s3).
Proof.
  induction s1 as [|c s1 IH]; [reflexivity|].
  change (String c ((s1 +:+ s2) +:+ s3) = String c (s1 +:+ (s2 +:+ s3))).
  now rewrite IH.
Qed.

Lemma call_module_msg_contains (module : string) (status : Z) (log : string) :
  log <> EmptyString -> PyStr.contains log (call_module_msg module status log).
Proof.
  intros Hlog. unfold call_module_msg.
  destruct (decide (log = EmptyString)) as [|_]; [contradiction|].
  exists ("'" +:+ module +:+ "' failed (error: " +:+ pretty status +:+ ")."
          +:+ PyStr.nl +:+ "---------- Error log ----------" +:+ PyStr.nl
          +:+ EmptyString +:+ PyStr.nl),
         (PyStr.nl +:+ EmptyString +:+ PyStr.nl
          +:+ "-------------------------------").
  cbn [PyStr.join]. rewrite !append_assoc. reflexivity.
Qed.

(** The whole run of [call_module] once the module was called and the
    log read back. *)
Lemma call_module_run (w : world) (module args : string) (mode session : Z)
      (logfile : string) (w2 : world) (status : Z) (e3 : env N) (text : string) :
  module_called w module args mode session logfile w2 status e3 text ->
  call_module lib module args w
  = (if negb (status =? 0)%Z
     then inl (GMTCLibError (call_module_msg module status (PyStr.strip text)))
     else inr tt,
     log_event (Os_Remove logfile)
       (set_files (delete logfile (snd e3))
          (log_event (GMT_Call_Module session module mode args status)
             (set_env e3 w2)))).
Proof.
  intros (Hmode & Hs & Henter & Hcall & Htext).
  unfold call_module, bind. rewrite get_constant_run, Hmode.
  rewrite (current_session_some _ session) by exact Hs.
  unfold log_to_file, with_generator, bind. rewrite Henter.
  unfold call_module_logged, bind, call_call_module. rewrite Hcall.
  unfold read_file, log_to_file_leave, os_remove, ret, raise.
  cbn [files log_event set_env snd fst]. rewrite Htext.
  cbn [files log_event set_env snd fst]. rewrite Htext.
  destruct (negb (status =? 0)%Z); reflexivity.
Qed.

(** C4, amended: once the module was called and the log read back,
    [call_module] raises GMTCLibError exactly when the status of
    GMT_Call_Module is not zero, the message holds the stripped log when
    that is not empty, and a zero status makes it return normally. *)
Theorem call_module_status (w : world) (module args : string) (mode session : Z)
        (logfile : string) (w2 : world) (status : Z) (e3 : env N)
        (text : string) :
  module_called w module args mode session logfile w2 status e3 text ->
  ((exists msg, fst (call_module lib module args w) = inl (GMTCLibError msg))
   <-> status <> 0%Z)
  /\ (status <> 0%Z -> PyStr.strip text <> EmptyString ->
      exists msg, fst (call_module lib module args w) = inl (GMTCLibError msg)
                  /\ PyStr.contains (PyStr.strip text) msg)
  /\ (status = 0%Z -> fst (call_module lib module args w) = inr tt).
Proof.
  intros Hrun. rewrite (call_module_run _ _ _ _ _ _ _ _ _ _ Hrun).
  cbn [fst]. destruct (Z.eqb_spec status 0) as [->|Hne]; cbn [negb].
  - split; [|split]; [|congruence|reflexivity].
    split; [intros [msg [=]] | congruence].
  - split; [|split]; [|..|contradiction].
    + split; [auto | eauto].
    + intros _ Hlog. eexists. split; [reflexivity|].
      now apply call_module_msg_contains.
Qed.

(** C8: when the module returns a status other than zero and the log,
    stripped, is empty, the GMTCLibError says that the module name is
    not a GMT module name, and nothing else. *)
Theorem call_module_empty_log (w : world) (module args : string)
        (mode session : Z) (logfile : string) (w2 : world) (status : Z)
        (e3 : env N) (text : string) :
  module_called w module args mode session logfile w2 status e3 text ->
  status <> 0%Z ->
  PyStr.strip text = EmptyString ->
  fst (call_module lib module args w)
  = inl (GMTCLibError ("Invalid GMT module name '" +:+ module +:+ "'.")).
Proof.
  intros Hrun Hne Hlog. rewrite (call_module_run _ _ _ _ _ _ _ _ _ _ Hrun).
  cbn [fst]. destruct (Z.eqb_spec status 0) as [|_]; [contradiction|].
  cbn [negb]. unfold call_module_msg. rewrite Hlog.
  destruct (decide (EmptyString = EmptyString)); [reflexivity | contradiction].
Qed.

Lemma only_lookups_refl (w : world) : only_lookups w w.
Proof.
  repeat split. exists []. split; [now rewrite app_nil_r | constructor].
Qed.

Lemma only_lookups_step (w w' : world) (name : string) :
  only_lookups w w' -> only_lookups w (log_event (GMT_Get_Enum name) w').
Proof.
  intros (Hs & He & Ht & l & Htr & Hl). repeat split; try assumption.
  exists (l ++ [GMT_Get_Enum name])%list. cbn [trace log_event].
  rewrite Htr, app_assoc. split; [reflexivity|].
  apply Forall_app. split; [assumption | repeat constructor].
Qed.

Lemma only_lookups_events (w w' : world) :
  only_lookups w w' -> Forall (fun e => is_get_enum e = true) (new_events w w').
Proof.
  intros (_ & _ & _ & l & Htr & Hl). now rewrite (new_events_app _ _ _ Htr).
Qed.

(** [_parse_data_family] does lookups only, fails with GMTCLibError
    only, and gives a value only for a valid family string. *)
Lemma parse_data_family_run (family : string) (w : world) :
  let r := _parse_data_family lib family w in
  only_lookups w (snd r)
  /\ (forall e, fst r = inl e -> is_GMTCLibError e = true)
  /\ (forall v, fst r = inr v -> valid_family family = true)
  /\ (py_in (hd EmptyString (PyStr.split "|" family)) data_families = false
      \/ (2 < length (PyStr.split "|" family))%nat -> snd r = w).
Proof.
  unfold _parse_data_family, valid_family.
  destruct (PyStr.split "|" family) as [|f [|v [|x rest]]] eqn:Hparts.
  - now apply split_not_nil in Hparts.
  - cbn [length Nat.ltb Nat.leb hd Nat.eqb nth].
    destruct (py_in f data_families) eqn:Hf; cbn [negb].
    + unfold bind. rewrite get_constant_run.
      destruct (constant f) as [e|a] eqn:Hc; cbn [fst snd].
      * split; [apply only_lookups_step, only_lookups_refl|].
        split; [intros e' [= <-]; eapply constant_inl; eauto|].
        split; [discriminate | intros [[=]|Hlen]; simpl in Hlen; lia].
      * split; [apply only_lookups_step, only_lookups_refl|].
        split; [discriminate|].
        split; [reflexivity | intros [[=]|Hlen]; simpl in Hlen; lia].
    + cbn [raise fst snd]. split; [apply only_lookups_refl|].
      split; [intros e [= <-]; reflexivity|].
      split; [discriminate | reflexivity].
  - cbn [length Nat.ltb Nat.leb hd Nat.eqb nth].
    destruct (py_in f data_families) eqn:Hf; cbn [negb].
    + unfold bind. rewrite !get_constant_run.
      destruct (constant f) as [e|a] eqn:Hc; cbn [fst snd].
      * split; [apply only_lookups_step, only_lookups_refl|].
        split; [intros e' [= <-]; eapply constant_inl; eauto|].
        split; [discriminate | intros [[=]|Hlen]; simpl in Hlen; lia].
      * destruct (py_in v data_vias) eqn:Hv; cbn [negb andb].
        -- rewrite get_constant_run.
           destruct (constant v) as [e|b] eqn:Hc'; cbn [fst snd].
           ++ split; [do 2 apply only_lookups_step; apply only_lookups_refl|].
              split; [intros e' [= <-]; eapply constant_inl; eauto|].
              split; [discriminate | intros [[=]|Hlen]; simpl in Hlen; lia].
           ++ split; [do 2 apply only_lookups_step; apply only_lookups_refl|].
              split; [discriminate|].
              split; [reflexivity | intros [[=]|Hlen]; simpl in Hlen; lia].
        -- cbn [raise fst snd].
           split; [apply only_lookups_step, only_lookups_refl|].
           split; [intros e' [= <-]; reflexivity|].
           split; [discriminate | intros [[=]|Hlen]; simpl in Hlen; lia].
    + cbn [raise fst snd]. split; [apply only_lookups_refl|].
      split; [intros e [= <-]; reflexivity|].
      split; [discriminate | reflexivity].
  - cbn [length Nat.ltb Nat.leb raise fst snd].
    split; [apply only_lookups_refl|].
    split; [intros e [= <-]; reflexivity|].
    split; [discriminate | reflexivity].
Qed.

Lemma valid_family_false (family : string) :
  valid_family family = false ->
  forall w v, fst (_parse_data_family lib family w) <> inr v.
Proof.
  intros Hbad w v Hr.
  destruct (parse_data_family_run family w) as (_ & _ & Hv & _).
  rewrite (Hv v Hr) in Hbad. discriminate.
Qed.

(** C2, amended: a family, geometry or mode outside the declared sets
    makes [create_data] raise GMTCLibError before GMT_Create_Data or any
    native function other than GMT_Get_Enum is called: all it has done
    by then are constant lookups, which leave the library, the disk and
    the session as they were; and when the first part of the family is
    not in [data_families], or the family has more than two parts,
    nothing at all has been called. *)
Theorem create_data_rejects (family geometry mode : string)
        (kw : kwargs c_double) (w : world) :
  valid_family family = false \/ geometry ∉ data_geometries
  \/ mode ∉ data_modes ->
  let r := create_data lib family geometry mode kw w in
  (exists msg, fst r = inl (GMTCLibError msg))
  /\ Forall (fun e => is_get_enum e = true) (new_events w (snd r))
  /\ the_env (snd r) = the_env w
  /\ session_id (snd r) = session_id w
  /\ (hd EmptyString (PyStr.split "|" family) ∉ data_families
      \/ (2 < length (PyStr.split "|" family))%nat -> snd r = w).
Proof.
  intros Hbad. unfold create_data, bind.
  destruct (parse_data_family_run family w) as (Hlook & Herr & Hval & Hnone).
  destruct (_parse_data_family lib family w) as [[e|family_int] w1] eqn:Hparse;
    cbn [fst snd] in *.
  - specialize (Herr e eq_refl). destruct e; try discriminate.
    split; [eauto|]. split; [now apply only_lookups_events|].
    split; [apply Hlook|]. split; [apply Hlook|].
    intros [Hf|Hlen]; apply Hnone; [left; now apply py_in_false | now right].
  - specialize (Hval family_int eq_refl).
    assert (Hfirst : hd EmptyString (PyStr.split "|" family) ∈ data_families
                     /\ (length (PyStr.split "|" family) <= 2)%nat).
    { revert Hval. unfold valid_family.
      destruct (PyStr.split "|" family) as [|f [|v [|x rest]]];
        try discriminate; cbn [hd length].
      - intros Hf. apply py_in_true in Hf. split; [assumption | lia].
      - intros Hf. apply andb_true_iff in Hf as [Hf _].
        apply py_in_true in Hf. split; [assumption | lia]. }
    destruct Hbad as [Hbad|[Hbad|Hbad]]; [congruence| |].
    + destruct (py_in mode data_modes); cbn [negb raise fst snd].
      * apply py_in_false in Hbad. rewrite Hbad. cbn [negb raise fst snd].
        split; [eauto|]. split; [now apply only_lookups_events|].
        split; [apply Hlook|]. split; [apply Hlook|].
        intros [Hf|Hlen]; [tauto | lia].
      * split; [eauto|]. split; [now apply only_lookups_events|].
        split; [apply Hlook|]. split; [apply Hlook|].
        intros [Hf|Hlen]; [tauto | lia].
    + apply py_in_false in Hbad. rewrite Hbad. cbn [negb raise fst snd].
      split; [eauto|]. split; [now apply only_lookups_events|].
      split; [apply Hlook|]. split; [apply Hlook|].
      intros [Hf|Hlen]; [tauto | lia].
Qed.

(** The events of a whole run of [create_data]: lookups only, or
    lookups and then the one call of GMT_Create_Data with the defaults
    filled in from the two constants. *)
Lemma create_data_run (family geometry mode : string) (kw : kwargs c_double)
      (w : world) :
  let w' := snd (create_data lib family geometry mode kw w) in
  Forall (fun e => is_get_enum e = true) (new_events w w')
  \/ exists l session family_int geometry_int mode_int node_reg pad_default,
       Forall (fun e => is_get_enum e = true) l
       /\ constant "GMT_GRID_NODE_REG" = inr node_reg
       /\ constant "GMT_PAD_DEFAULT" = inr pad_default
       /\ new_events w w'
          = (l ++ [GMT_Create_Data session family_int geometry_int mode_int
                     (kw_dim kw) (kw_ranges kw) (kw_inc kw)
                     (default node_reg (kw_registration kw))
                     (default pad_default (kw_pad kw)) None])%list.
Proof.
  unfold create_data, bind.
  destruct (parse_data_family_run family w) as (Hlook & _).
  destruct (_parse_data_family lib family w) as [[e|family_int] w1];
    cbn [fst snd] in *.
  { left. now apply only_lookups_events. }
  destruct (py_in mode data_modes); cbn [negb raise snd];
    [|left; now apply only_lookups_events].
  destruct (py_in geometry data_geometries); cbn [negb raise snd];
    [|left; now apply only_lookups_events].
  rewrite !get_constant_run.
  destruct (constant "GMT_GRID_NODE_REG") as [e|node_reg] eqn:Hreg; cbn [snd].
  { left. now apply only_lookups_events, only_lookups_step. }
  destruct (constant "GMT_PAD_DEFAULT") as [e|pad_default] eqn:Hpad; cbn [snd].
  { left. now apply only_lookups_events; do 2 apply only_lookups_step. }
  assert (Hlook2 : only_lookups w
                     (log_event (GMT_Get_Enum "GMT_PAD_DEFAULT")
                        (log_event (GMT_Get_Enum "GMT_GRID_NODE_REG") w1)))
    by (now do 2 apply only_lookups_step).
  set (w3 := log_event _ (log_event _ w1)) in *.
  destruct (session_id w3) as [session|] eqn:Hs.
  2:{ destruct (current_session_none w3 Hs) as [msg ->]. cbn [snd].
      left. now apply only_lookups_events. }
  rewrite (current_session_some w3 session Hs), !get_constant_run.
  destruct (constant geometry) as [e|geometry_int]; cbn [snd].
  { left. now apply only_lookups_events, only_lookups_step. }
  destruct (constant mode) as [e|mode_int]; cbn [snd].
  { left. now apply only_lookups_events; do 2 apply only_lookups_step. }
  assert (Hlook3 : only_lookups w
                     (log_event (GMT_Get_Enum mode)
                        (log_event (GMT_Get_Enum geometry) w3)))
    by (now do 2 apply only_lookups_step).
  set (w5 := log_event _ (log_event _ w3)) in *.
  destruct Hlook3 as (_ & _ & _ & l & Htr & Hl).
  right. exists l, session, family_int, geometry_int, mode_int, node_reg,
           pad_default.
  split; [assumption|]. split; [reflexivity|]. split; [reflexivity|].
  unfold call_create_data, kwargs_to_ctypes_array.
  destruct (_c_create_data lib _ _ _ _ _ _ _ _ _ _ _) as [data_ptr e].
  apply new_events_app.
  destruct (kw_dim kw), (kw_ranges kw), (kw_inc kw), data_ptr;
    cbn [raise ret snd trace log_event set_env]; rewrite Htr, app_assoc;
    reflexivity.
Qed.

(** C10: whenever [create_data] calls GMT_Create_Data, the arrays dim,
    ranges and inc are NULL for the keys absent from [kwargs], the
    registration and the pad are the values [get_constant] gives for
    GMT_GRID_NODE_REG and GMT_PAD_DEFAULT when those keys are absent,
    and the argument for existing data is NULL. *)
Theorem create_data_defaults (family geometry mode : string)
        (kw : kwargs c_double) (w : world)
        (session fam geo mo : Z) (dim : option (list Z))
        (ranges inc : option (list c_double)) (reg pad : Z) (data : option Z) :
  GMT_Create_Data session fam geo mo dim ranges inc reg pad data
    ∈ new_events w (snd (create_data lib family geometry mode kw w)) ->
  (kw_dim kw = None -> dim = None)
  /\ (kw_ranges kw = None -> ranges = None)
  /\ (kw_inc kw = None -> inc = None)
  /\ (kw_registration kw = None ->
      fst (get_constant lib "GMT_GRID_NODE_REG" w) = inr reg)
  /\ (kw_pad kw = None -> fst (get_constant lib "GMT_PAD_DEFAULT" w) = inr pad)
  /\ data = None.
Proof.
  intros Hin. rewrite !get_constant_run. cbn [fst].
  destruct (create_data_run family geometry mode kw w)
    as [Hall|(l & s & f & g & m & node_reg & pad_default & Hl & Hreg & Hpad & Hev)].
  - rewrite Forall_forall in Hall. apply Hall in Hin. discriminate.
  - rewrite Hev in Hin. apply elem_of_app in Hin as [Hin|Hin].
    + rewrite Forall_forall in Hl. apply Hl in Hin. discriminate.
    + apply list_elem_of_singleton in Hin.
      injection Hin as -> -> -> -> -> -> -> -> -> ->.
      rewrite Hreg, Hpad.
      repeat split; try (intros ->; reflexivity).
Qed.

(** *** The session: [create_session], [__enter__], [destroy_session] *)

Lemma the_env_log_event (e : event) (w : world) :
  the_env (log_event e w) = the_env w.
Proof. reflexivity. Qed.

Lemma no_constant_error (name : string) :
  (forall v, constant name <> inr v) ->
  exists msg, constant name = inl (GMTCLibError msg).
Proof.
  intros Hno. destruct (constant name) as [e|v] eqn:Hc.
  - apply constant_inl in Hc. destruct e; try discriminate. eauto.
  - now destruct (Hno v).
Qed.

(** X1: with both constants known, [create_session] looks them up, calls
    GMT_Create_Session once with the name, the pad and the session type,
    and returns the pointer, or raises GMTCLibError for the NULL pointer;
    it does not store the session. *)
Theorem create_session_outcome (name : string) (w : world) (pad ext : Z) :
  constant "GMT_PAD_DEFAULT" = inr pad ->
  constant "GMT_SESSION_EXTERNAL" = inr ext ->
  let answer := _c_create_session lib name pad ext (the_env w) in
  let r := create_session lib name w in
  new_events w (snd r)
  = [ GMT_Get_Enum "GMT_PAD_DEFAULT"; GMT_Get_Enum "GMT_SESSION_EXTERNAL";
      GMT_Create_Session name pad ext ]
  /\ session_id (snd r) = session_id w
  /\ the_env (snd r) = snd answer
  /\ fst r = match fst answer with
             | Some s => inr s
             | None => inl (GMTCLibError "Failed to create a GMT API void pointer.")
             end.
Proof.
  intros Hpad Hext answer r. subst answer r.
  unfold create_session, bind. rewrite !get_constant_run, Hpad, Hext.
  unfold call_create_session. rewrite !the_env_log_event.
  destruct (_c_create_session lib name pad ext (the_env w)) as [[s|] [n fs]];
    cbn [fst snd raise ret];
    (split; [apply new_events_app; trace_norm; reflexivity|]);
    repeat split.
Qed.

(** X2: when GMT_PAD_DEFAULT or GMT_SESSION_EXTERNAL is not a constant
    of the library, [create_session] raises GMTCLibError and
    GMT_Create_Session is not called. *)
Theorem create_session_unknown_constant (name : string) (w : world) :
  (forall v, constant "GMT_PAD_DEFAULT" <> inr v)
  \/ (forall v, constant "GMT_SESSION_EXTERNAL" <> inr v) ->
  let r := create_session lib name w in
  (exists msg, fst r = inl (GMTCLibError msg))
  /\ only_lookups w (snd r).
Proof.
  intros Hno r. subst r. unfold create_session, bind.
  rewrite !get_constant_run.
  destruct (constant "GMT_PAD_DEFAULT") as [e|pad] eqn:Hpad.
  - apply constant_inl in Hpad. destruct e; try discriminate. cbn [fst snd].
    split; [eauto | apply only_lookups_step, only_lookups_refl].
  - destruct Hno as [Hno|Hno]; [now destruct (Hno pad)|].
    destruct (no_constant_error _ Hno) as [msg ->]. cbn [fst snd].
    split; [eauto | do 2 apply only_lookups_step; apply only_lookups_refl].
Qed.

(** X3: when [__enter__] raises, it is a GMTCLibError and the stored
    session is the one stored before; when it returns, the stored
    session is the pointer GMT_Create_Session gave for the name
    'gmt-python-session', whatever was stored before, and
    [current_session] returns it. *)
Theorem enter_stores_session (w : world) :
  let r := __enter__ lib w in
  (forall e, fst r = inl e ->
             is_GMTCLibError e = true /\ session_id (snd r) = session_id w)
  /\ (fst r = inr tt ->
      exists pad ext s,
        constant "GMT_PAD_DEFAULT" = inr pad
        /\ constant "GMT_SESSION_EXTERNAL" = inr ext
        /\ fst (_c_create_session lib "gmt-python-session" pad ext (the_env w))
           = Some s
        /\ current_session (snd r) = (inr s, snd r)).
Proof.
  intros r. subst r. unfold __enter__, bind.
  destruct (constant "GMT_PAD_DEFAULT") as [e|pad] eqn:Hpad.
  { destruct (create_session_unknown_constant "gmt-python-session" w)
      as [[msg Hmsg] (Hs & _)]; [left; congruence|].
    destruct (create_session lib "gmt-python-session" w) as [[e'|s] w1];
      cbn [fst snd] in *; [|discriminate].
    split; [|discriminate]. intros e0 [= <-]. injection Hmsg as ->. auto. }
  destruct (constant "GMT_SESSION_EXTERNAL") as [e|ext] eqn:Hext.
  { destruct (create_session_unknown_constant "gmt-python-session" w)
      as [[msg Hmsg] (Hs & _)]; [right; congruence|].
    destruct (create_session lib "gmt-python-session" w) as [[e'|s] w1];
      cbn [fst snd] in *; [|discriminate].
    split; [|discriminate]. intros e0 [= <-]. injection Hmsg as ->. auto. }
  destruct (create_session_outcome "gmt-python-session" w pad ext Hpad Hext)
    as (_ & Hs & _ & Hr).
  destruct (create_session lib "gmt-python-session" w) as [[e|s] w1];
    cbn [fst snd] in *.
  - split; [|discriminate]. intros e0 [= <-].
    destruct (fst (_c_create_session lib _ pad ext (the_env w)));
      [discriminate|]. injection Hr as ->. auto.
  - split; [discriminate|]. intros _. exists pad, ext, s.
    destruct (fst (_c_create_session lib _ pad ext (the_env w)));
      [|discriminate]. injection Hr as ->. repeat split.
Qed.

Lemma destroy_session_run (s : Z) (w : world) :
  destroy_session lib s w
  = (if negb (fst (_c_destroy_session lib s (the_env w)) =? 0)%Z
     then inl (GMTCLibError "Failed to destroy GMT API session")
     else inr tt,
     log_event (GMT_Destroy_Session s (fst (_c_destroy_session lib s (the_env w))))
       (set_env (snd (_c_destroy_session lib s (the_env w))) w)).
Proof.
  unfold destroy_session, bind, call_destroy_session.
  destruct (_c_destroy_session lib s (the_env w)) as [status e]. cbn [fst snd].
  destruct (negb (status =? 0)%Z); reflexivity.
Qed.

(** X4: [destroy_session] calls GMT_Destroy_Session once on the pointer
    it is given, raises GMTCLibError exactly when the status is not zero,
    and leaves the stored session alone: after a direct call
    [current_session] still returns the pointer that was stored. *)
Theorem destroy_session_keeps_stored (session : Z) (w : world) :
  let status := fst (_c_destroy_session lib session (the_env w)) in
  let r := destroy_session lib session w in
  new_events w (snd r) = [GMT_Destroy_Session session status]
  /\ ((exists msg, fst r = inl (GMTCLibError msg)) <-> status <> 0%Z)
  /\ (fst r = inr tt <-> status = 0%Z)
  /\ session_id (snd r) = session_id w
  /\ fst (current_session (snd r)) = fst (current_session w).
Proof.
  intros status r. subst status r. rewrite destroy_session_run. cbn [fst snd].
  split; [apply new_events_app; reflexivity|].
  destruct (Z.eqb_spec (fst (_c_destroy_session lib session (the_env w))) 0)
    as [Hz|Hnz]; cbn [negb].
  - split; [split; [intros [msg [=]] | congruence]|].
    split; [tauto|]. split; [reflexivity|].
    unfold current_session. cbn [session_id log_event set_env].
    destruct (session_id w); reflexivity.
  - split; [split; [auto | eauto]|].
    split; [split; [discriminate | contradiction]|]. split; [reflexivity|].
    unfold current_session. cbn [session_id log_event set_env].
    destruct (session_id w); reflexivity.
Qed.

(** X5: with no session stored, [__exit__] raises GMTCLibNoSessionError,
    calls nothing and changes nothing. *)
Theorem exit_without_session (w : world) :
  session_id w = None ->
  exists msg, __exit__ lib w = (inl (GMTCLibNoSessionError msg), w).
Proof.
  intros Hs. unfold __exit__, try_finally, bind.
  destruct (current_session_none w Hs) as [msg ->].
  exists msg. unfold set_current_session, set_session. cbn [fst snd].
  destruct w as [sid n fs names tr]. cbn in *. now subst.
Qed.

(** X6: the [with] statement on the class.  Once [__enter__] has
    returned and whatever the block does, as long as it leaves the stored
    session alone: GMT_Destroy_Session is called on the session
    [__enter__] stored as the last thing, the stored session is [None]
    afterwards, the outcome of the block (its value or its exception) is
    the outcome of the statement when the status is zero, and a status
    other than zero replaces it by GMTCLibError. *)
Theorem with_LibGMT_releases {A : Type} (body : M N c_double A) (w w1 w2 : world)
        (r : exn + A) :
  __enter__ lib w = (inr tt, w1) ->
  body w1 = (r, w2) ->
  session_id w2 = session_id w1 ->
  exists s,
    session_id w1 = Some s
    /\ let status := fst (_c_destroy_session lib s (the_env w2)) in
       let out := with_LibGMT lib body w in
       trace (snd out) = (trace w2 ++ [GMT_Destroy_Session s status])%list
       /\ session_id (snd out) = None
       /\ (status = 0%Z -> fst out = r)
       /\ (status <> 0%Z ->
           fst out = inl (GMTCLibError "Failed to destroy GMT API session")).
Proof.
  intros Henter Hbody Hkeep.
  destruct (enter_stores_session w) as [_ Hok].
  rewrite Henter in Hok. cbn [fst snd] in Hok.
  destruct (Hok eq_refl) as (pad & ext & s & _ & _ & _ & Hcur).
  assert (Hs1 : session_id w1 = Some s).
  { unfold current_session in Hcur. destruct (session_id w1); congruence. }
  exists s. split; [exact Hs1|].
  unfold with_LibGMT, bind. rewrite Henter.
  unfold try_finally. rewrite Hbody.
  unfold __exit__, try_finally, bind.
  rewrite (current_session_some w2 s) by congruence.
  rewrite destroy_session_run. unfold set_current_session.
  destruct (Z.eqb_spec (fst (_c_destroy_session lib s (the_env w2))) 0)
    as [Hz|Hnz]; cbn [negb fst snd];
    (split; [reflexivity|]); (split; [reflexivity|]); split; congruence.
Qed.

(** *** [call_module] and [log_to_file], step by step *)

Lemma mkstemp_fresh (prefix suffix : string) (names rest : list string)
      (fs : fsys) (p : string) :
  mkstemp prefix suffix names fs = Some (p, rest) -> fs !! p = None.
Proof.
  induction names as [|n names IH]; cbn [mkstemp]; [discriminate|].
  destruct (fs !! (tempdir +:+ prefix +:+ n +:+ suffix)) eqn:Hn; [exact IH|].
  intros [= <- <-]. exact Hn.
Qed.

(** [log_to_file] with no path, up to its [yield], when the session and
    the two constants are there. *)
Lemma log_to_file_enter_temp (w : world) (s once isfile : Z) (p : string)
      (rest : list string) (hstatus : Z) (e1 : env N) :
  constant "GMT_LOG_ONCE" = inr once ->
  constant "GMT_IS_FILE" = inr isfile ->
  session_id w = Some s ->
  mkstemp "gmt-python-" ".log" (temp_names w) (files w) = Some (p, rest) ->
  _c_handle_messages lib s once isfile p
    (native w, <[p := EmptyString]> (files w)) = (hstatus, e1) ->
  log_to_file_enter lib None w
  = (if negb (hstatus =? 0)%Z
     then inl (GMTCLibError
                 ("Failed to set logging to file '" +:+ p +:+ "' (error: "
                  +:+ pretty hstatus +:+ ")."))
     else inr p,
     World (Some s) (fst e1) (snd e1) rest
       (trace w ++ [ Temp_File p; GMT_Get_Enum "GMT_LOG_ONCE";
                     GMT_Get_Enum "GMT_IS_FILE";
                     GMT_Handle_Messages s once isfile p hstatus ])).
Proof.
  intros Honce Hfile Hs Htmp Hmsg.
  unfold log_to_file_enter, bind, NamedTemporaryFile. rewrite Htmp.
  unfold current_session. cbn [session_id log_event set_files set_temp_names].
  rewrite Hs, !get_constant_run, Honce, Hfile.
  unfold call_handle_messages, the_env.
  cbn [native files log_event set_files set_temp_names]. rewrite Hmsg.
  unfold set_env, log_event, set_files, set_temp_names, raise, ret.
  cbn [trace session_id native files temp_names fst snd].
  rewrite ?Hs, <- ?app_assoc. cbn [app].
  destruct (negb (hstatus =? 0)%Z); reflexivity.
Qed.

Lemma module_reached_constants (w : world) (module args : string)
      (s mode once isfile : Z) (p : string) (rest : list string)
      (hstatus : Z) (e1 : env N) (status : Z) (e2 : env N) :
  module_reached w module args s mode once isfile p rest hstatus e1 status e2 ->
  constant "GMT_MODULE_CMD" = inr mode
  /\ constant "GMT_LOG_ONCE" = inr once
  /\ constant "GMT_IS_FILE" = inr isfile.
Proof.
  intros (Hm & Hm' & Ho & Ho' & Hf & Hf' & _).
  repeat split; apply constant_inr; auto.
Qed.

(** The whole of [call_module] once the log is set up (status 0 of
    GMT_Handle_Messages): the module is called, and then everything
    turns on whether the log file can be opened. *)
Lemma call_module_steps (w : world) (module args : string)
      (s mode once isfile : Z) (p : string) (rest : list string)
      (e1 : env N) (status : Z) (e2 : env N) :
  module_reached w module args s mode once isfile p rest 0 e1 status e2 ->
  let called :=
    World (Some s) (fst e2) (snd e2) rest
      (trace w ++ [ GMT_Get_Enum "GMT_MODULE_CMD"; Temp_File p;
                    GMT_Get_Enum "GMT_LOG_ONCE"; GMT_Get_Enum "GMT_IS_FILE";
                    GMT_Handle_Messages s once isfile p 0;
                    GMT_Call_Module s module mode args status ]) in
  call_module lib module args w
  = match snd e2 !! p with
    | None => (inl (FileNotFoundError p), called)
    | Some text =>
        (if negb (status =? 0)%Z
         then inl (GMTCLibError (call_module_msg module status (PyStr.strip text)))
         else inr tt,
         log_event (Os_Remove p) (set_files (delete p (snd e2)) called))
    end.
Proof.
  intros Hreach.
  destruct (module_reached_constants _ _ _ _ _ _ _ _ _ _ _ _ _ Hreach)
    as (Hmode & Honce & Hfile).
  destruct Hreach as (_ & _ & _ & _ & _ & _ & Hs & Htmp & Hmsg & Hcall).
  cbv zeta. unfold call_module, bind. rewrite get_constant_run, Hmode.
  rewrite (current_session_some _ s) by exact Hs.
  unfold log_to_file, with_generator, bind.
  rewrite (log_to_file_enter_temp (log_event (GMT_Get_Enum "GMT_MODULE_CMD") w)
             s once isfile p rest 0 e1 Honce Hfile Hs Htmp Hmsg).
  cbn [Z.eqb negb trace log_event].
  unfold call_module_logged, bind, call_call_module, the_env.
  cbn [native files]. rewrite <- surjective_pairing, Hcall.
  unfold read_file, log_to_file_leave, os_remove, ret, raise, set_env,
    set_files, log_event.
  cbn [trace session_id native files temp_names fst snd].
  rewrite <- !app_assoc. cbn [app].
  destruct (snd e2 !! p) as [text|] eqn:Hlog; [|reflexivity].
  cbn [trace session_id native files temp_names fst snd]. rewrite Hlog.
  rewrite <- !app_assoc. cbn [app].
  destruct (negb (status =? 0)%Z); reflexivity.
Qed.

(** X7: outside a session [call_module] stops before [log_to_file]: it
    has looked up GMT_MODULE_CMD and nothing else, no temporary file is
    drawn or created and the disk is as before; with the constant known
    the exception is GMTCLibNoSessionError. *)
Theorem call_module_without_session (module args : string) (w : world) :
  session_id w = None ->
  let r := call_module lib module args w in
  snd r = log_event (GMT_Get_Enum "GMT_MODULE_CMD") w
  /\ (exists e, fst r = inl e)
  /\ (forall mode, constant "GMT_MODULE_CMD" = inr mode ->
      exists msg, fst r = inl (GMTCLibNoSessionError msg)).
Proof.
  intros Hs r. subst r. unfold call_module, bind. rewrite get_constant_run.
  destruct (constant "GMT_MODULE_CMD") as [e|mode]; cbn [fst snd].
  - split; [reflexivity|]. split; [eauto | discriminate].
  - destruct (current_session_none (log_event (GMT_Get_Enum "GMT_MODULE_CMD") w) Hs)
      as [msg ->].
    cbn [fst snd]. split; [reflexivity|]. split; eauto.
Qed.

(** X8: when the log is set up and the log file is still there after
    the module, [call_module] has done, in this order: the lookup of
    GMT_MODULE_CMD, the temporary file, the lookups of GMT_LOG_ONCE and
    GMT_IS_FILE, GMT_Handle_Messages on that file, GMT_Call_Module with
    the session, the mode and the two strings, and [os.remove] of the
    file; the file is off the disk at the end, for a zero and for a
    non-zero status alike, and the session is still stored. *)
Theorem call_module_trace (w : world) (module args : string)
        (s mode once isfile : Z) (p : string) (rest : list string)
        (e1 : env N) (status : Z) (e2 : env N) (text : string) :
  module_reached w module args s mode once isfile p rest 0 e1 status e2 ->
  snd e2 !! p = Some text ->
  let r := call_module lib module args w in
  new_events w (snd r)
  = [ GMT_Get_Enum "GMT_MODULE_CMD"; Temp_File p;
      GMT_Get_Enum "GMT_LOG_ONCE"; GMT_Get_Enum "GMT_IS_FILE";
      GMT_Handle_Messages s once isfile p 0;
      GMT_Call_Module s module mode args status; Os_Remove p ]
  /\ files w !! p = None
  /\ files (snd r) = delete p (snd e2)
  /\ files (snd r) !! p = None
  /\ session_id (snd r) = Some s.
Proof.
  intros Hreach Htext r. subst r.
  rewrite (call_module_steps _ _ _ _ _ _ _ _ _ _ _ _ Hreach), Htext.
  cbn [fst snd]. split.
  { apply new_events_app. cbn [trace log_event set_files].
    rewrite <- app_assoc. reflexivity. }
  split.
  { destruct Hreach as (_ & _ & _ & _ & _ & _ & _ & Htmp & _).
    eapply mkstemp_fresh, Htmp. }
  repeat split. cbn [files log_event set_files]. apply lookup_delete_eq.
Qed.

(** X9: when the log file is gone after GMT_Call_Module, opening it
    raises FileNotFoundError inside the [with] block: the status is
    never looked at, a non-zero status raises no GMTCLibError, and
    [os.remove] is not called. *)
Theorem call_module_log_gone (w : world) (module args : string)
        (s mode once isfile : Z) (p : string) (rest : list string)
        (e1 : env N) (status : Z) (e2 : env N) :
  module_reached w module args s mode once isfile p rest 0 e1 status e2 ->
  snd e2 !! p = None ->
  let r := call_module lib module args w in
  fst r = inl (FileNotFoundError p)
  /\ new_events w (snd r)
     = [ GMT_Get_Enum "GMT_MODULE_CMD"; Temp_File p;
         GMT_Get_Enum "GMT_LOG_ONCE"; GMT_Get_Enum "GMT_IS_FILE";
         GMT_Handle_Messages s once isfile p 0;
         GMT_Call_Module s module mode args status ]
  /\ files (snd r) = snd e2.
Proof.
  intros Hreach Hgone r. subst r.
  rewrite (call_module_steps _ _ _ _ _ _ _ _ _ _ _ _ Hreach), Hgone.
  cbn [fst snd]. split; [reflexivity|].
  split; [apply new_events_app; reflexivity | reflexivity].
Qed.

(** X10: when GMT_Handle_Messages answers a status other than zero,
    [call_module] raises GMTCLibError with the message that names the
    log file and the status, GMT_Call_Module is not called and
    [os.remove] is not called: the disk is as GMT_Handle_Messages left
    it. *)
Theorem call_module_logging_refused (w : world) (module args : string)
        (s mode once isfile : Z) (p : string) (rest : list string)
        (hstatus : Z) (e1 : env N) (status : Z) (e2 : env N) :
  module_reached w module args s mode once isfile p rest hstatus e1 status e2 ->
  hstatus <> 0%Z ->
  let r := call_module lib module args w in
  fst r = inl (GMTCLibError
                 ("Failed to set logging to file '" +:+ p +:+ "' (error: "
                  +:+ pretty hstatus +:+ ")."))
  /\ new_events w (snd r)
     = [ GMT_Get_Enum "GMT_MODULE_CMD"; Temp_File p;
         GMT_Get_Enum "GMT_LOG_ONCE"; GMT_Get_Enum "GMT_IS_FILE";
         GMT_Handle_Messages s once isfile p hstatus ]
  /\ files (snd r) = snd e1.
Proof.
  intros Hreach Hne r. subst r.
  destruct (module_reached_constants _ _ _ _ _ _ _ _ _ _ _ _ _ Hreach)
    as (Hmode & Honce & Hfile).
  destruct Hreach as (_ & _ & _ & _ & _ & _ & Hs & Htmp & Hmsg & _).
  unfold call_module, bind. rewrite get_constant_run, Hmode.
  rewrite (current_session_some _ s) by exact Hs.
  unfold log_to_file, with_generator, bind.
  rewrite (log_to_file_enter_temp (log_event (GMT_Get_Enum "GMT_MODULE_CMD") w)
             s once isfile p rest hstatus e1 Honce Hfile Hs Htmp Hmsg).
  destruct (Z.eqb_spec hstatus 0) as [|_]; [contradiction|].
  cbn [negb fst snd]. split; [reflexivity|].
  split; [|reflexivity].
  apply new_events_app. cbn [trace log_event]. rewrite <- app_assoc. reflexivity.
Qed.

(** X11: [log_to_file] with no path, used outside a session: the
    temporary file is created first, then reading the session raises
    GMTCLibNoSessionError; the block is not run, nothing of libgmt is
    called, and the new empty file is on disk. *)
Theorem log_to_file_without_session {A : Type} (body : string -> M N c_double A)
        (w : world) (p : string) (rest : list string) :
  session_id w = None ->
  mkstemp "gmt-python-" ".log" (temp_names w) (files w) = Some (p, rest) ->
  let r := log_to_file lib None body w in
  (exists msg, fst r = inl (GMTCLibNoSessionError msg))
  /\ new_events w (snd r) = [Temp_File p]
  /\ files w !! p = None
  /\ files (snd r) = <[p := EmptyString]> (files w).
Proof.
  intros Hs Htmp r. subst r.
  unfold log_to_file, with_generator, log_to_file_enter, bind, NamedTemporaryFile.
  rewrite Htmp. unfold current_session.
  cbn [session_id log_event set_files set_temp_names]. rewrite Hs.
  cbn [fst snd]. split; [eauto|].
  split; [apply new_events_app; reflexivity|].
  split; [eapply mkstemp_fresh, Htmp | reflexivity].
Qed.

(** *** [create_data], step by step *)

(** A run of [create_data] either stops with an exception after lookups
    only, or passes every check and ends with the one call of
    GMT_Create_Data, whose answer decides the result. *)
Lemma create_data_call (family geometry mode : string) (kw : kwargs c_double)
      (w : world) :
  let r := create_data lib family geometry mode kw w in
  (Forall (fun e => is_get_enum e = true) (new_events w (snd r))
   /\ the_env (snd r) = the_env w
   /\ exists e, fst r = inl e)
  \/ exists l session family_int geometry_int mode_int node_reg pad_default,
       session_id w = Some session
       /\ fst (_parse_data_family lib family w) = inr family_int
       /\ constant geometry = inr geometry_int
       /\ constant mode = inr mode_int
       /\ constant "GMT_GRID_NODE_REG" = inr node_reg
       /\ constant "GMT_PAD_DEFAULT" = inr pad_default
       /\ Forall (fun e => is_get_enum e = true) l
       /\ new_events w (snd r)
          = (l ++ [GMT_Create_Data session family_int geometry_int mode_int
                     (kw_dim kw) (kw_ranges kw) (kw_inc kw)
                     (default node_reg (kw_registration kw))
                     (default pad_default (kw_pad kw)) None])%list
       /\ fst r
          = match fst (_c_create_data lib session family_int geometry_int
                         mode_int (kw_dim kw) (kw_ranges kw) (kw_inc kw)
                         (default node_reg (kw_registration kw))
                         (default pad_default (kw_pad kw)) None (the_env w)) with
            | Some p => inr p
            | None =>
                inl (GMTCLibError "Failed to create an empty GMT data pointer.")
            end.
Proof.
  unfold create_data, bind.
  destruct (parse_data_family_run family w) as (Hlook & _).
  destruct (_parse_data_family lib family w) as [[e|family_int] w1];
    cbn [fst snd] in *.
  { left. split; [now apply only_lookups_events|]. split; [apply Hlook | eauto]. }
  destruct (py_in mode data_modes); cbn [negb raise fst snd];
    [|left; split; [now apply only_lookups_events|];
      split; [apply Hlook | eauto]].
  destruct (py_in geometry data_geometries); cbn [negb raise fst snd];
    [|left; split; [now apply only_lookups_events|];
      split; [apply Hlook | eauto]].
  rewrite !get_constant_run.
  destruct (constant "GMT_GRID_NODE_REG") as [e|node_reg] eqn:Hreg; cbn [fst snd].
  { left. split; [now apply only_lookups_events, only_lookups_step|].
    split; [apply Hlook | eauto]. }
  destruct (constant "GMT_PAD_DEFAULT") as [e|pad_default] eqn:Hpad; cbn [fst snd].
  { left. split; [now apply only_lookups_events; do 2 apply only_lookups_step|].
    split; [apply Hlook | eauto]. }
  assert (Hlook2 : only_lookups w
                     (log_event (GMT_Get_Enum "GMT_PAD_DEFAULT")
                        (log_event (GMT_Get_Enum "GMT_GRID_NODE_REG") w1)))
    by (now do 2 apply only_lookups_step).
  set (w3 := log_event _ (log_event _ w1)) in *.
  destruct (session_id w3) as [session|] eqn:Hs.
  2:{ destruct (current_session_none w3 Hs) as [msg ->]. cbn [fst snd].
      left. split; [now apply only_lookups_events|].
      split; [apply Hlook2 | eauto]. }
  rewrite (current_session_some w3 session Hs), !get_constant_run.
  destruct (constant geometry) as [e|geometry_int]; cbn [fst snd].
  { left. split; [now apply only_lookups_events, only_lookups_step|].
    split; [apply Hlook2 | eauto]. }
  destruct (constant mode) as [e|mode_int]; cbn [fst snd].
  { left. split; [now apply only_lookups_events; do 2 apply only_lookups_step|].
    split; [apply Hlook2 | eauto]. }
  assert (Hlook3 : only_lookups w
                     (log_event (GMT_Get_Enum mode)
                        (log_event (GMT_Get_Enum geometry) w3)))
    by (now do 2 apply only_lookups_step).
  set (w5 := log_event _ (log_event _ w3)) in *.
  destruct Hlook3 as (_ & Henv & _ & l & Htr & Hl).
  right. exists l, session, family_int, geometry_int, mode_int, node_reg,
           pad_default.
  split; [rewrite <- Hs; symmetry; apply Hlook2|].
  do 5 (split; [reflexivity|]). split; [assumption|].
  unfold call_create_data, kwargs_to_ctypes_array. rewrite Henv.
  destruct (kw_dim kw), (kw_ranges kw), (kw_inc kw);
    destruct (_c_create_data lib _ _ _ _ _ _ _ _ _ _ _) as [[p|] e];
    cbn [raise ret fst snd];
    (split; [apply new_events_app; cbn [trace log_event set_env];
             rewrite Htr, app_assoc; reflexivity
            | reflexivity]).
Qed.

(** X12: every call of GMT_Create_Data that [create_data] makes is its
    last action and comes after lookups only; it gets the stored
    session, the number [_parse_data_family] gave for the family, the
    constants of the geometry and mode names, and the registration and
    pad of [kwargs] when they are given. *)
Theorem create_data_passes_arguments (family geometry mode : string)
        (kw : kwargs c_double) (w : world)
        (session fam geo mo : Z) (dim : option (list Z))
        (ranges inc : option (list c_double)) (reg pad : Z) (data : option Z) :
  let call := GMT_Create_Data session fam geo mo dim ranges inc reg pad data in
  call ∈ new_events w (snd (create_data lib family geometry mode kw w)) ->
  session_id w = Some session
  /\ fst (_parse_data_family lib family w) = inr fam
  /\ constant geometry = inr geo
  /\ constant mode = inr mo
  /\ (forall given, kw_registration kw = Some given -> reg = given)
  /\ (forall given, kw_pad kw = Some given -> pad = given)
  /\ exists lookups,
       Forall (fun e => is_get_enum e = true) lookups
       /\ new_events w (snd (create_data lib family geometry mode kw w))
          = (lookups ++ [call])%list.
Proof.
  intros call Hin. subst call.
  destruct (create_data_call family geometry mode kw w)
    as [(Hall & _)
       |(l & s & f & g & m & node_reg & pad_default & Hs & Hparse & Hgeo & Hmode
         & _ & _ & Hl & Hev & _)].
  - rewrite Forall_forall in Hall. apply Hall in Hin. discriminate.
  - rewrite Hev in Hin |- *. apply elem_of_app in Hin as [Hin|Hin].
    + rewrite Forall_forall in Hl. apply Hl in Hin. discriminate.
    + apply list_elem_of_singleton in Hin.
      injection Hin as -> -> -> -> -> -> -> -> -> ->.
      do 4 (split; [assumption|]).
      split; [intros given ->; reflexivity|].
      split; [intros given ->; reflexivity|].
      exists l. split; [assumption | reflexivity].
Qed.

(** X13: outside a session [create_data] raises, and all it has done are
    constant lookups: GMT_Create_Data is not called and neither the
    library nor the disk has changed. *)
Theorem create_data_without_session (family geometry mode : string)
        (kw : kwargs c_double) (w : world) :
  session_id w = None ->
  let r := create_data lib family geometry mode kw w in
  (exists e, fst r = inl e)
  /\ Forall (fun e => is_get_enum e = true) (new_events w (snd r))
  /\ the_env (snd r) = the_env w.
Proof.
  intros Hs r. subst r.
  destruct (create_data_call family geometry mode kw w)
    as [(Hall & Henv & He)|(l & s & _ & _ & _ & _ & _ & Hs' & _)].
  - auto.
  - congruence.
Qed.

(** X14: inside a session, with a family that parses, a mode and a
    geometry of the declared lists and the four constants known,
    [create_data] returns the pointer GMT_Create_Data gives, and raises
    GMTCLibError when that is the NULL pointer. *)
Theorem create_data_result (family geometry mode : string)
        (kw : kwargs c_double) (w : world)
        (session family_int geometry_int mode_int node_reg pad_default : Z) :
  session_id w = Some session ->
  fst (_parse_data_family lib family w) = inr family_int ->
  mode ∈ data_modes ->
  geometry ∈ data_geometries ->
  constant "GMT_GRID_NODE_REG" = inr node_reg ->
  constant "GMT_PAD_DEFAULT" = inr pad_default ->
  constant geometry = inr geometry_int ->
  constant mode = inr mode_int ->
  fst (create_data lib family geometry mode kw w)
  = match fst (_c_create_data lib session family_int geometry_int mode_int
                 (kw_dim kw) (kw_ranges kw) (kw_inc kw)
                 (default node_reg (kw_registration kw))
                 (default pad_default (kw_pad kw)) None (the_env w)) with
    | Some p => inr p
    | None => inl (GMTCLibError "Failed to create an empty GMT data pointer.")
    end.
Proof.
  intros Hs Hparse Hmode Hgeo Hreg Hpad Hg Hm.
  apply py_in_true in Hmode, Hgeo.
  unfold create_data, bind.
  destruct (parse_data_family_run family w) as ((Hsid & Henv & _) & _).
  destruct (_parse_data_family lib family w) as [[e'|fi] w1];
    cbn [fst snd] in *; [discriminate|].
  injection Hparse as ->.
  rewrite Hmode, Hgeo. cbn [negb]. rewrite !get_constant_run, Hreg, Hpad.
  rewrite (current_session_some _ session)
    by (cbn [session_id log_event]; congruence).
  rewrite !get_constant_run, Hg, Hm.
  unfold call_create_data, kwargs_to_ctypes_array.
  rewrite !the_env_log_event, Henv.
  destruct (kw_dim kw), (kw_ranges kw), (kw_inc kw);
    destruct (_c_create_data lib _ _ _ _ _ _ _ _ _ _ _) as [[ptr|] env'];
    reflexivity.
Qed.


End Properties.

(** ** The methods on the sample library *)

(** C1: with a session open and GMT_Handle_Messages answering 1,
    [call_module] raises GMTCLibError and the temporary log file it has
    just created, which was not there before, is still on disk. *)
Theorem call_module_leaves_log_file :
  let w := Sample.opened in
  let r := call_module (Sample.lib 0 1 0 EmptyString) "figure" "x" w in
  fst r = inl (GMTCLibError
                 "Failed to set logging to file '/tmp/gmt-python-a1.log' (error: 1).")
  /\ files w !! "/tmp/gmt-python-a1.log" = None
  /\ Temp_File "/tmp/gmt-python-a1.log" ∈ new_events w (snd r)
  /\ Forall (fun e => e <> Os_Remove "/tmp/gmt-python-a1.log") (new_events w (snd r))
  /\ files (snd r) !! "/tmp/gmt-python-a1.log" = Some EmptyString.
Proof.
  vm_compute. repeat split.
  - apply list_elem_of_In. simpl. tauto.
  - repeat constructor; discriminate.
Qed.

(** When the set-up succeeds, the same call removes the file. *)
Example call_module_removes_log_file :
  let r := call_module (Sample.lib 0 0 7 "oops") "figure" "x" Sample.opened in
  files (snd r) !! "/tmp/gmt-python-a1.log" = None.
Proof. vm_compute. reflexivity. Qed.

(** C2 as stated fails: with the mode unknown, the family has already
    been looked up through GMT_Get_Enum when the error is raised. *)
Lemma create_data_rejects_counterexample :
  ~ rejected_before_any_call (Sample.lib 0 0 0 EmptyString) Sample.opened
      "GMT_IS_GRID" "GMT_IS_POINT" "BAD" Sample.no_kwargs.
Proof.
  intros [_ Hnone]. vm_compute in Hnone.
  apply Forall_cons in Hnone as [Hfalse _]. discriminate.
Qed.

Lemma create_data_rejects_witness :
  ("BAD" ∉ data_modes)
  /\ (let r := create_data (Sample.lib 0 0 0 EmptyString)
                 "GMT_IS_GRID" "GMT_IS_POINT" "BAD" Sample.no_kwargs Sample.opened in
      (exists msg, fst r = inl (GMTCLibError msg))
      /\ Forall (fun e => is_get_enum e = true) (new_events Sample.opened (snd r))).
Proof.
  assert (Hmode : "BAD" ∉ data_modes) by (apply py_in_false; reflexivity).
  split; [exact Hmode|].
  destruct (create_data_rejects (Sample.lib 0 0 0 EmptyString)
              "GMT_IS_GRID" "GMT_IS_POINT" "BAD" Sample.no_kwargs Sample.opened
              (or_intror (or_intror Hmode)))
    as (Hmsg & Hev & _).
  split; assumption.
Defined.

(** C4 as stated fails: GMT_Handle_Messages answering 1 makes
    [call_module] raise GMTCLibError although GMT_Call_Module was never
    called. *)
Lemma call_module_status_counterexample :
  ~ raises_iff_module_failed (Sample.lib 0 1 0 EmptyString) Sample.opened
      "figure" "x".
Proof.
  intros [Honly _].
  destruct Honly as (session & mode & status & Hin & _).
  - eexists. vm_compute. reflexivity.
  - vm_compute in Hin.
    repeat (apply elem_of_cons in Hin as [Hin|Hin]; [discriminate|]).
    now apply elem_of_nil in Hin.
Qed.

(** The intermediate states of [call_module "figure" "x"] on the sample
    library, from [Sample.opened], when the module answers [status] and
    writes [log]. *)
Lemma sample_module_called (status : Z) (log : string) :
  let lib := Sample.lib 0 0 status log in
  let logfile := "/tmp/gmt-python-a1.log" in
  let w2 := snd (log_to_file_enter lib None
                   (log_event (GMT_Get_Enum "GMT_MODULE_CMD") Sample.opened)) in
  module_called lib Sample.opened "figure" "x" 0 1000 logfile w2 status
    (None, <[logfile := log]> (files w2)) log.
Proof.
  repeat split.
Qed.

Lemma call_module_status_witness :
  let lib := Sample.lib 0 0 7 "oops" in
  exists msg, fst (call_module lib "figure" "x" Sample.opened)
              = inl (GMTCLibError msg)
              /\ PyStr.contains "oops" msg.
Proof.
  intros lib.
  refine (proj1 (proj2 (call_module_status lib Sample.opened "figure" "x" 0 1000
                          _ _ 7 _ "oops" (sample_module_called 7 "oops"))) _ _).
  - discriminate.
  - discriminate.
Defined.

Lemma call_module_empty_log_witness :
  fst (call_module (Sample.lib 0 0 7 EmptyString) "figure" "x" Sample.opened)
  = inl (GMTCLibError "Invalid GMT module name 'figure'.").
Proof.
  refine (call_module_empty_log (Sample.lib 0 0 7 EmptyString) Sample.opened
            "figure" "x" 0 1000 _ _ 7 _ EmptyString
            (sample_module_called 7 EmptyString) _ _).
  - discriminate.
  - reflexivity.
Defined.

Lemma exit_destroys_then_clears_witness :
  let lib := Sample.lib 3 0 0 EmptyString in
  session_id Sample.opened = Some 1000%Z
  /\ new_events Sample.opened (snd (__exit__ lib Sample.opened))
     = [GMT_Destroy_Session 1000 3]
  /\ session_id (snd (__exit__ lib Sample.opened)) = None.
Proof.
  intros lib. split; [reflexivity|].
  destruct (exit_destroys_then_clears lib Sample.opened 1000 eq_refl)
    as (Hev & Hnone & _).
  split; assumption.
Defined.

Lemma get_constant_spec_witness :
  fst (get_constant (Sample.lib 0 0 0 EmptyString) "GMT_PAD_DEFAULT" Sample.fresh)
  = inr 2%Z.
Proof.
  apply (proj2 (get_constant_spec (Sample.lib 0 0 0 EmptyString)
                  "GMT_PAD_DEFAULT" Sample.fresh)).
  - reflexivity.
  - discriminate.
Defined.

Lemma parse_data_family_spec_witness :
  let lib := Sample.lib 0 0 0 EmptyString in
  (exists msg, fst (_parse_data_family lib "GMT_IS_GRID|GMT_VIA_MATRIX|x"
                      Sample.fresh) = inl (GMTCLibError msg))
  /\ fst (_parse_data_family lib "GMT_IS_GRID" Sample.fresh) = inr 1%Z
  /\ fst (_parse_data_family lib "GMT_IS_GRID|GMT_VIA_MATRIX" Sample.fresh)
     = inr 129%Z.
Proof.
  intros lib. split; [|split].
  - apply (proj1 (parse_data_family_spec lib "GMT_IS_GRID|GMT_VIA_MATRIX|x"
                    Sample.fresh)).
    left. vm_compute. lia.
  - rewrite (proj1 (proj2 (parse_data_family_spec lib "GMT_IS_GRID" Sample.fresh))
               "GMT_IS_GRID" eq_refl).
    + reflexivity.
    + apply py_in_true. reflexivity.
  - rewrite (proj2 (proj2 (parse_data_family_spec lib "GMT_IS_GRID|GMT_VIA_MATRIX"
                             Sample.fresh))
               "GMT_IS_GRID" "GMT_VIA_MATRIX" eq_refl).
    + reflexivity.
    + apply py_in_true. reflexivity.
    + apply py_in_true. reflexivity.
Defined.

Lemma log_to_file_given_path_witness :
  let lib := Sample.lib 0 0 0 EmptyString in
  let w := set_files {[ "my.log" := "old" ]} Sample.opened in
  let r := log_to_file lib (Some "my.log") (fun name => ret name) w in
  fst r = inr "my.log"
  /\ files w !! "my.log" = Some "old"
  /\ files (snd r) !! "my.log" = None.
Proof.
  intros lib w r. split; [reflexivity|]. split; [reflexivity|].
  apply (proj2 (log_to_file_given_path lib "my.log" w) string
               (fun name => ret name) "my.log" (snd r)).
  reflexivity.
Defined.

Lemma create_data_defaults_witness :
  let lib := Sample.lib 0 0 0 EmptyString in
  let w' := snd (create_data lib "GMT_IS_GRID|GMT_VIA_MATRIX" "GMT_IS_POINT"
                   "GMT_OUTPUT" Sample.no_kwargs Sample.opened) in
  GMT_Create_Data 1000 129 1 1 None None None 0 2 None ∈ new_events Sample.opened w'
  /\ fst (get_constant lib "GMT_GRID_NODE_REG" Sample.opened) = inr 0%Z
  /\ fst (get_constant lib "GMT_PAD_DEFAULT" Sample.opened) = inr 2%Z.
Proof.
  intros lib w'.
  assert (Hin : GMT_Create_Data 1000 129 1 1 None None None 0 2 None
                  ∈ new_events Sample.opened w').
  { apply list_elem_of_In. vm_compute. tauto. }
  split; [exact Hin|].
  destruct (create_data_defaults lib "GMT_IS_GRID|GMT_VIA_MATRIX" "GMT_IS_POINT"
              "GMT_OUTPUT" Sample.no_kwargs Sample.opened
              1000 129 1 1 None None None 0 2 None Hin)
    as (_ & _ & _ & Hreg & Hpad & _).
  split; [apply Hreg | apply Hpad]; reflexivity.
Defined.

(** ** The further properties on the sample libraries *)

Lemma sample_constant (name : string) (v : Z) :
  Sample.get_enum Sample.enum_table name = Some v -> v <> (-99999)%Z ->
  forall (d m h : Z) (log : string),
    constant (Sample.lib d m h log) name = inr v.
Proof. intros Hv Hne d m h log. apply constant_inr. split; assumption. Qed.

Lemma bare_constant (name : string) (v : Z) :
  constant Sample.bare name <> inr v.
Proof.
  intros H. apply constant_inr in H as [H Hne]. injection H as <-.
  now apply Hne.
Qed.

Lemma create_session_outcome_witness :
  let lib := Sample.lib 0 0 0 EmptyString in
  fst (create_session lib "gmt-python-session" Sample.fresh) = inr 1000%Z
  /\ new_events Sample.fresh (snd (create_session lib "gmt-python-session" Sample.fresh))
     = [ GMT_Get_Enum "GMT_PAD_DEFAULT"; GMT_Get_Enum "GMT_SESSION_EXTERNAL";
         GMT_Create_Session "gmt-python-session" 2 2 ].
Proof.
  intros lib.
  destruct (create_session_outcome lib "gmt-python-session" Sample.fresh 2 2)
    as (Hev & _ & _ & Hr).
  - apply sample_constant; [reflexivity | discriminate].
  - apply sample_constant; [reflexivity | discriminate].
  - split; [exact Hr | exact Hev].
Defined.

Lemma create_session_unknown_constant_witness :
  exists msg, fst (create_session Sample.bare "gmt-python-session" Sample.fresh)
              = inl (GMTCLibError msg).
Proof.
  apply (create_session_unknown_constant Sample.bare "gmt-python-session"
           Sample.fresh).
  left. intros v. apply bare_constant.
Defined.

Lemma enter_stores_session_witness :
  let lib := Sample.lib 0 0 0 EmptyString in
  fst (__enter__ lib Sample.fresh) = inr tt
  /\ exists pad ext s,
       constant lib "GMT_PAD_DEFAULT" = inr pad
       /\ constant lib "GMT_SESSION_EXTERNAL" = inr ext
       /\ fst (_c_create_session lib "gmt-python-session" pad ext
                 (the_env Sample.fresh)) = Some s
       /\ current_session (snd (__enter__ lib Sample.fresh))
          = (inr s, snd (__enter__ lib Sample.fresh)).
Proof.
  intros lib.
  assert (Hok : fst (__enter__ lib Sample.fresh) = inr tt) by reflexivity.
  split; [exact Hok|].
  exact (proj2 (enter_stores_session lib Sample.fresh) Hok).
Defined.

Lemma exit_without_session_witness :
  session_id Sample.fresh = None
  /\ exists msg, __exit__ (Sample.lib 3 0 0 EmptyString) Sample.fresh
                 = (inl (GMTCLibNoSessionError msg), Sample.fresh).
Proof.
  split; [reflexivity|].
  apply (exit_without_session (Sample.lib 3 0 0 EmptyString) Sample.fresh).
  reflexivity.
Defined.

Lemma with_LibGMT_releases_witness :
  let lib := Sample.lib 3 0 7 "oops" in
  let out := with_LibGMT lib (call_module lib "figure" "x") Sample.fresh in
  session_id (snd out) = None
  /\ fst out = inl (GMTCLibError "Failed to destroy GMT API session").
Proof.
  intros lib out.
  destruct (with_LibGMT_releases lib (call_module lib "figure" "x") Sample.fresh
              (snd (__enter__ lib Sample.fresh))
              (snd (call_module lib "figure" "x" (snd (__enter__ lib Sample.fresh))))
              (fst (call_module lib "figure" "x" (snd (__enter__ lib Sample.fresh)))))
    as (s & Hs & _ & Hnone & _ & Hbad).
  - reflexivity.
  - apply surjective_pairing.
  - reflexivity.
  - split; [exact Hnone|]. apply Hbad.
    injection Hs as <-. discriminate.
Defined.

Lemma call_module_without_session_witness :
  let lib := Sample.lib 0 0 0 EmptyString in
  session_id Sample.fresh = None
  /\ snd (call_module lib "figure" "x" Sample.fresh)
     = log_event (GMT_Get_Enum "GMT_MODULE_CMD") Sample.fresh
  /\ exists msg, fst (call_module lib "figure" "x" Sample.fresh)
                 = inl (GMTCLibNoSessionError msg).
Proof.
  intros lib. split; [reflexivity|].
  destruct (call_module_without_session lib "figure" "x" Sample.fresh eq_refl)
    as (Hw & _ & Hmsg).
  split; [exact Hw|]. apply (Hmsg 0%Z).
  apply sample_constant; [reflexivity | discriminate].
Defined.

Lemma call_module_trace_witness :
  let lib := Sample.lib 0 0 7 "oops" in
  let p := "/tmp/gmt-python-a1.log" in
  let r := call_module lib "figure" "x" Sample.opened in
  new_events Sample.opened (snd r)
  = [ GMT_Get_Enum "GMT_MODULE_CMD"; Temp_File p;
      GMT_Get_Enum "GMT_LOG_ONCE"; GMT_Get_Enum "GMT_IS_FILE";
      GMT_Handle_Messages 1000 1 0 p 0;
      GMT_Call_Module 1000 "figure" 0 "x" 7; Os_Remove p ]
  /\ files (snd r) !! p = None.
Proof.
  intros lib p r.
  destruct (call_module_trace lib Sample.opened "figure" "x" 1000 0 1 0 p
              [ "b2" ] (Some p, {[ p := EmptyString ]}) 7
              (None, {[ p := "oops" ]}) "oops")
    as (Hev & _ & _ & Hgone & _).
  - unfold module_reached.
    repeat (split; [first [reflexivity | discriminate]|]). reflexivity.
  - reflexivity.
  - split; [exact Hev | exact Hgone].
Defined.

Lemma call_module_log_gone_witness :
  let lib := Sample.removing_log 7 in
  fst (call_module lib "figure" "x" Sample.opened)
  = inl (FileNotFoundError "/tmp/gmt-python-a1.log").
Proof.
  intros lib.
  destruct (call_module_log_gone lib Sample.opened "figure" "x" 1000 0 1 0
              "/tmp/gmt-python-a1.log" [ "b2" ]
              (Some "/tmp/gmt-python-a1.log",
               {[ "/tmp/gmt-python-a1.log" := EmptyString ]}) 7
              (None, ∅))
    as (Hr & _).
  - unfold module_reached.
    repeat (split; [first [reflexivity | discriminate]|]). reflexivity.
  - reflexivity.
  - exact Hr.
Defined.

Lemma call_module_logging_refused_witness :
  let lib := Sample.lib 0 5 0 EmptyString in
  let r := call_module lib "figure" "x" Sample.opened in
  fst r = inl (GMTCLibError
                 "Failed to set logging to file '/tmp/gmt-python-a1.log' (error: 5).")
  /\ files (snd r) !! "/tmp/gmt-python-a1.log" = Some EmptyString.
Proof.
  intros lib r.
  destruct (call_module_logging_refused lib Sample.opened "figure" "x" 1000 0 1 0
              "/tmp/gmt-python-a1.log" [ "b2" ] 5
              (None, {[ "/tmp/gmt-python-a1.log" := EmptyString ]}) 0
              (None, {[ "/tmp/gmt-python-a1.log" := EmptyString ]}))
    as (Hr & _ & Hfiles).
  - unfold module_reached.
    repeat (split; [first [reflexivity | discriminate]|]). reflexivity.
  - discriminate.
  - split; [exact Hr|]. subst r. rewrite Hfiles. reflexivity.
Defined.

Lemma log_to_file_without_session_witness :
  let lib := Sample.lib 0 0 0 EmptyString in
  let r := log_to_file lib None (fun name => ret name) Sample.fresh in
  (exists msg, fst r = inl (GMTCLibNoSessionError msg))
  /\ files (snd r) = {[ "/tmp/gmt-python-a1.log" := EmptyString ]}.
Proof.
  intros lib r.
  destruct (log_to_file_without_session lib (fun name => ret name) Sample.fresh
              "/tmp/gmt-python-a1.log" [ "b2" ] eq_refl eq_refl)
    as (Hmsg & _ & _ & Hfiles).
  split; [exact Hmsg | exact Hfiles].
Defined.

Lemma create_data_passes_arguments_witness :
  let lib := Sample.lib 0 0 0 EmptyString in
  let kw := Kwargs (Some [3; 4; 0; 0]%Z) None None (Some 1%Z) (Some 0%Z) in
  let w' := snd (create_data lib "GMT_IS_GRID" "GMT_IS_SURFACE"
                   "GMT_CONTAINER_ONLY" kw Sample.opened) in
  GMT_Create_Data 1000 1 8 2 (Some [3; 4; 0; 0]%Z) None None 1 0 None
    ∈ new_events Sample.opened w'
  /\ session_id Sample.opened = Some 1000%Z
  /\ fst (_parse_data_family lib "GMT_IS_GRID" Sample.opened) = inr 1%Z.
Proof.
  intros lib kw w'.
  assert (Hin : GMT_Create_Data 1000 1 8 2 (Some [3; 4; 0; 0]%Z) None None 1 0 None
                  ∈ new_events Sample.opened w').
  { apply list_elem_of_In. vm_compute. tauto. }
  split; [exact Hin|].
  destruct (create_data_passes_arguments lib "GMT_IS_GRID" "GMT_IS_SURFACE"
              "GMT_CONTAINER_ONLY" kw Sample.opened
              1000 1 8 2 (Some [3; 4; 0; 0]%Z) None None 1 0 None Hin)
    as (Hs & Hfam & _).
  split; [exact Hs | exact Hfam].
Defined.

Lemma create_data_without_session_witness :
  let lib := Sample.lib 0 0 0 EmptyString in
  session_id Sample.fresh = None
  /\ exists e, fst (create_data lib "GMT_IS_GRID" "GMT_IS_SURFACE"
                      "GMT_CONTAINER_ONLY" Sample.no_kwargs Sample.fresh) = inl e.
Proof.
  intros lib. split; [reflexivity|].
  exact (proj1 (create_data_without_session lib "GMT_IS_GRID" "GMT_IS_SURFACE"
                  "GMT_CONTAINER_ONLY" Sample.no_kwargs Sample.fresh eq_refl)).
Defined.

Lemma create_data_result_witness :
  let lib := Sample.lib 0 0 0 EmptyString in
  fst (create_data lib "GMT_IS_GRID|GMT_VIA_MATRIX" "GMT_IS_SURFACE"
         "GMT_CONTAINER_ONLY" Sample.no_kwargs Sample.opened) = inr 2000%Z.
Proof.
  intros lib.
  apply (create_data_result lib "GMT_IS_GRID|GMT_VIA_MATRIX" "GMT_IS_SURFACE"
           "GMT_CONTAINER_ONLY" Sample.no_kwargs Sample.opened 1000 129 8 2 0 2).
  - reflexivity.
  - reflexivity.
  - apply py_in_true. reflexivity.
  - apply py_in_true. reflexivity.
  - apply sample_constant; [reflexivity | discriminate].
  - apply sample_constant; [reflexivity | discriminate].
  - apply sample_constant; [reflexivity | discriminate].
  - apply sample_constant; [reflexivity | discriminate].
Defined.

